(** * The WhatsApp webhook: session resolution, state merge and appointment trigger

    A shallow embedding of [COMPLETE_WEBHOOK_FUNCTION.ts]: the request
    handler passed to [serve] and its helper [sendWhatsAppMessageViaTwilio].

    The handler talks to a store (two tables, [hospitals] and
    [whatsapp_conversations]) and to three services (the AI conversation
    function, Twilio, the appointment function).  The store is modelled by
    its two tables, the services by the outcome they give and by a trace of
    the calls made to them. *)

From Stdlib Require Import List String Ascii ZArith Bool Lia.
From Stdlib Require DecimalString.
Import ListNotations.

Local Open Scope string_scope.
Local Open Scope Z_scope.

Set Warnings "-register-all".

(** ** JavaScript values as the handler sees them *)

Module Js.

(** A value that came out of [JSON.parse] or out of a row of the store.
    Numbers are kept to the integers: the handler never computes with a
    number of a payload, it only tests it for truthiness, and among the
    numbers JSON can carry zero alone is falsy.  The numbers are the finite
    ones: a literal too large for a double (1e400), which [JSON.parse]
    reads as [Infinity] and a JSON writer puts down as [null], has no
    counterpart here, and a property that depends on a value being written
    as it was read says what it takes the value to be. *)
Inductive Json : Type :=
| JNull
| JBool (b : bool)
| JNum (n : Z)
| JStr (s : string)
| JArr (items : list Json)
| JObj (fields : list (string * Json)).

(** Reading a property of a parsed object gives [None] when the object has
    no such property ([undefined]) and [Some v] when it has. *)
Definition Property := option Json.

(** [ToBoolean]. *)
Definition truthy (v : Json) : bool :=
  match v with
  | JNull => false
  | JBool b => b
  | JNum n => negb (n =? 0)
  | JStr s => negb (s =? EmptyString)%string
  | JArr _ => true
  | JObj _ => true
  end.

(** [a || b] where [a] is a property read and [b] a value. *)
Definition or_else (a : Property) (b : Json) : Json :=
  match a with
  | Some v => if truthy v then v else b
  | None => b
  end.

(** [a || b] between two values. *)
Definition or_val (a b : Json) : Json := if truthy a then a else b.

(** [a === true] for a property read. *)
Definition is_true (a : Property) : bool :=
  match a with
  | Some (JBool true) => true
  | _ => false
  end.

(** [v !== s] for a string literal [s]. *)
Definition differs_from (v : Json) (s : string) : bool :=
  match v with
  | JStr t => negb (t =? s)%string
  | _ => true
  end.

(** A property is present when it is neither [undefined] nor [null]. *)
Definition present (a : Property) : Prop :=
  exists v, a = Some v /\ v <> JNull.

End Js.
Import Js.

(** ** Rows of the store *)

Inductive Role : Type := patient | assistant.

(** One turn of a transcript.  The assistant's turn has no [messageSid], and
    its [content] is [aiResult.response], which may be missing. *)
Record Turn : Type := mkTurn {
  role : Role;
  content : Property;
  timestamp : Z;
  messageSid : Property
}.

Module Hospital.
Record t : Type := mk {
  id : string;
  name : string;
  whatsapp_enabled : bool;
  whatsapp_number : option string;
  organization_type : option string
}.
End Hospital.

Module Conversation.

(** A row of [whatsapp_conversations] as [select('*')] returns it.
    Timestamps are milliseconds since the epoch. *)
Record t : Type := mk {
  id : string;
  hospital_id : string;
  patient_phone : string;
  conversation_state : Json;
  collected_symptoms : Json;
  triage_level : Json;
  urgency_score : Json;
  first_aid_given : Json;
  patient_name : Json;
  appointment_created : Json;
  transcript : option (list Turn);
  created_at : Z;
  last_message_at : Z
}.

Inductive Column : Type :=
| c_id | c_hospital_id | c_patient_phone
| c_conversation_state | c_collected_symptoms | c_triage_level
| c_urgency_score | c_first_aid_given | c_patient_name
| c_appointment_created | c_transcript | c_created_at | c_last_message_at.

Inductive Value : Type :=
| VText (s : string)
| VJson (v : Json)
| VTurns (l : option (list Turn))
| VTime (z : Z).

Definition read (c : Column) (s : t) : Value :=
  match c with
  | c_id => VText (id s)
  | c_hospital_id => VText (hospital_id s)
  | c_patient_phone => VText (patient_phone s)
  | c_conversation_state => VJson (conversation_state s)
  | c_collected_symptoms => VJson (collected_symptoms s)
  | c_triage_level => VJson (triage_level s)
  | c_urgency_score => VJson (urgency_score s)
  | c_first_aid_given => VJson (first_aid_given s)
  | c_patient_name => VJson (patient_name s)
  | c_appointment_created => VJson (appointment_created s)
  | c_transcript => VTurns (transcript s)
  | c_created_at => VTime (created_at s)
  | c_last_message_at => VTime (last_message_at s)
  end.

(** One [column: value] entry of the object given to [insert] or
    [update]. *)
Inductive Assign : Type :=
| set_id (v : string)
| set_hospital_id (v : string)
| set_patient_phone (v : string)
| set_conversation_state (v : Json)
| set_collected_symptoms (v : Json)
| set_triage_level (v : Json)
| set_urgency_score (v : Json)
| set_first_aid_given (v : Json)
| set_patient_name (v : Json)
| set_appointment_created (v : Json)
| set_transcript (v : list Turn)
| set_created_at (v : Z)
| set_last_message_at (v : Z).

Definition column (a : Assign) : Column :=
  match a with
  | set_id _ => c_id
  | set_hospital_id _ => c_hospital_id
  | set_patient_phone _ => c_patient_phone
  | set_conversation_state _ => c_conversation_state
  | set_collected_symptoms _ => c_collected_symptoms
  | set_triage_level _ => c_triage_level
  | set_urgency_score _ => c_urgency_score
  | set_first_aid_given _ => c_first_aid_given
  | set_patient_name _ => c_patient_name
  | set_appointment_created _ => c_appointment_created
  | set_transcript _ => c_transcript
  | set_created_at _ => c_created_at
  | set_last_message_at _ => c_last_message_at
  end.

Definition assign (a : Assign) (s : t) : t :=
  let '(mk i h p st sy tr ur fa pn ap ts ca lm) := s in
  match a with
  | set_id v => mk v h p st sy tr ur fa pn ap ts ca lm
  | set_hospital_id v => mk i v p st sy tr ur fa pn ap ts ca lm
  | set_patient_phone v => mk i h v st sy tr ur fa pn ap ts ca lm
  | set_conversation_state v => mk i h p v sy tr ur fa pn ap ts ca lm
  | set_collected_symptoms v => mk i h p st v tr ur fa pn ap ts ca lm
  | set_triage_level v => mk i h p st sy v ur fa pn ap ts ca lm
  | set_urgency_score v => mk i h p st sy tr v fa pn ap ts ca lm
  | set_first_aid_given v => mk i h p st sy tr ur v pn ap ts ca lm
  | set_patient_name v => mk i h p st sy tr ur fa v ap ts ca lm
  | set_appointment_created v => mk i h p st sy tr ur fa pn v ts ca lm
  | set_transcript v => mk i h p st sy tr ur fa pn ap (Some v) ca lm
  | set_created_at v => mk i h p st sy tr ur fa pn ap ts v lm
  | set_last_message_at v => mk i h p st sy tr ur fa pn ap ts ca v
  end.

(** The object given to [insert] or [update], entry after entry. *)
Definition Patch : Type := list Assign.

Definition apply (p : Patch) (s : t) : t :=
  fold_left (fun acc a => assign a acc) p s.

Definition columns (p : Patch) : list Column := map column p.

End Conversation.

(** The JSON object the AI conversation function answers with: the ten
    properties the handler reads, each present or not.  An answer that is
    not JSON, or is the JSON null, makes the handler throw where it reads
    it; that is an [Outcome] of the call, below. *)
Module AiResult.
Record t : Type := mk {
  response : Property;
  newState : Property;
  symptoms : Property;
  triageLevel : Property;
  patientName : Property;
  urgencyScore : Property;
  firstAid : Property;
  createAppointment : Property;
  preferredDate : Property;
  preferredTime : Property
}.
End AiResult.

(** ** State merge (lines 239-246) *)

Record Merged : Type := mkMerged {
  newState : Json;
  collectedSymptoms : Json;
  triageLevel : Json;
  patientName : Json;
  urgencyScore : Json;
  firstAidGiven : Json;
  preferredDate : Json;
  preferredTime : Json
}.

Definition merge (conversation : Conversation.t) (aiResult : AiResult.t) : Merged :=
  {| newState :=
       or_else (AiResult.newState aiResult)
         (Conversation.conversation_state conversation);
     collectedSymptoms :=
       or_else (AiResult.symptoms aiResult)
         (Conversation.collected_symptoms conversation);
     triageLevel :=
       or_else (AiResult.triageLevel aiResult)
         (Conversation.triage_level conversation);
     patientName :=
       or_else (AiResult.patientName aiResult)
         (Conversation.patient_name conversation);
     urgencyScore :=
       or_else (AiResult.urgencyScore aiResult)
         (Conversation.urgency_score conversation);
     firstAidGiven :=
       or_else (AiResult.firstAid aiResult)
         (Conversation.first_aid_given conversation);
     preferredDate := or_else (AiResult.preferredDate aiResult) JNull;
     preferredTime := or_else (AiResult.preferredTime aiResult) JNull |}.

(** The six merged fields: where the update carries the field, where the
    session keeps it, where the merge puts it. *)
Definition merged_fields
  : list ((AiResult.t -> Property) * (Conversation.t -> Json) * (Merged -> Json)) :=
  [ (AiResult.newState, Conversation.conversation_state, newState);
    (AiResult.symptoms, Conversation.collected_symptoms, collectedSymptoms);
    (AiResult.triageLevel, Conversation.triage_level, triageLevel);
    (AiResult.urgencyScore, Conversation.urgency_score, urgencyScore);
    (AiResult.firstAid, Conversation.first_aid_given, firstAidGiven);
    (AiResult.patientName, Conversation.patient_name, patientName) ].

(** ** Appointment trigger (lines 262-271) *)

Definition shouldCreateAppointment
    (conversation : Conversation.t) (aiResult : AiResult.t) (m : Merged) : bool :=
  negb (truthy (Conversation.appointment_created conversation))
  && (is_true (AiResult.createAppointment aiResult)
      || (truthy (collectedSymptoms m)
          && truthy (triageLevel m)
          && differs_from (triageLevel m) "CRITICAL")).

(** ** Strings *)

Fixpoint skip (n : nat) (s : string) : string :=
  match n, s with
  | S k, String _ rest => skip k rest
  | _, _ => s
  end.

(** [s.replace(pattern, replacement)] with a string pattern: the first
    occurrence only. *)
Fixpoint replace (pattern replacement s : string) : string :=
  if String.prefix pattern s
  then replacement ++ skip (String.length pattern) s
  else match s with
       | EmptyString => EmptyString
       | String c rest => String c (replace pattern replacement rest)
       end.

(** [s.includes(needle)]. *)
Fixpoint includes (needle s : string) : bool :=
  String.prefix needle s
  || match s with
     | EmptyString => false
     | String _ rest => includes needle rest
     end.

(** A number inside a template literal. *)
Definition decimal (z : Z) : string :=
  DecimalString.NilZero.string_of_int (Z.to_int z).

(** Lines 71-72: drop the [whatsapp:] prefix and the sign. *)
Definition normalize (address : string) : string :=
  replace "+" EmptyString (replace "whatsapp:" EmptyString address).

(** ** The store *)

Record Database : Type := mkDatabase {
  hospitals : list Hospital.t;
  whatsapp_conversations : list Conversation.t
}.

(** [.single()]: the row when the result has exactly one, no data
    otherwise. *)
Definition single {A : Type} (rows : list A) : option A :=
  match rows with
  | [r] => Some r
  | _ => None
  end.

Definition limit {A : Type} (n : nat) (rows : list A) : list A := firstn n rows.

(** [.eq(column, value)] on a nullable text column. *)
Definition text_eq (cell : option string) (value : string) : bool :=
  match cell with
  | Some s => (s =? value)%string
  | None => false
  end.

(** [.neq(column, value)] on a cell: a comparison with a null cell is not
    true. *)
Definition cell_neq (cell : Json) (value : string) : bool :=
  match cell with
  | JNull => false
  | JStr s => negb (s =? value)%string
  | _ => true
  end.

(** Line 85: the text given to [.or(...)].  The number is spliced into it
    as it is, without quotes. *)
Definition numberFilter (hospitalWhatsApp : string) : string :=
  "whatsapp_number.eq." ++ hospitalWhatsApp
  ++ ",whatsapp_number.eq.+" ++ hospitalWhatsApp.

Definition isDigit (c : ascii) : bool :=
  ((48 <=? nat_of_ascii c) && (nat_of_ascii c <=? 57))%nat.

Fixpoint allDigits (s : string) : bool :=
  match s with
  | EmptyString => true
  | String c rest => isDigit c && allDigits rest
  end.

(** A number the store reads back as it was written into the filter: one
    digit or more, so none of the characters the filter syntax gives a
    meaning to (comma, dot, colon, parentheses, quotes). *)
Definition plain (s : string) : bool :=
  negb (s =? EmptyString)%string && allDigits s.

(** Lines 82-87, row by row.  For a plain number the text of line 85 is two
    equalities on [whatsapp_number].  For any other text what the filter
    says is the store's to decide, by its own syntax: [reading] is what the
    store makes of the text on a row (no row at all when it refuses the
    text). *)
Definition matchesNumber (reading : string -> Hospital.t -> bool)
    (hospitalWhatsApp : string) (h : Hospital.t) : bool :=
  (if plain hospitalWhatsApp
   then text_eq (Hospital.whatsapp_number h) hospitalWhatsApp
        || text_eq (Hospital.whatsapp_number h) ("+" ++ hospitalWhatsApp)
   else reading (numberFilter hospitalWhatsApp) h)
  && Hospital.whatsapp_enabled h.

Definition selectHospital (reading : string -> Hospital.t -> bool)
    (rows : list Hospital.t) (hospitalWhatsApp : string) : option Hospital.t :=
  single (filter (matchesNumber reading hospitalWhatsApp) rows).

(** Lines 95-100.  The rows come in the order the store keeps them. *)
Definition selectFallbackHospital (rows : list Hospital.t) : option Hospital.t :=
  single (limit 1
    (filter (fun h => text_eq (Hospital.organization_type h) "hospital") rows)).

(** [!hospitalId]. *)
Definition noHospital (hospitalId : option string) : bool :=
  match hospitalId with
  | None => true
  | Some i => (i =? EmptyString)%string
  end.

(** The liveness window of line 134, in milliseconds. *)
Definition window : Z := 2 * 60 * 60 * 1000.

(** The four filters of lines 139-142. *)
Definition active (hospitalId patientPhone : string) (twoHoursAgo : Z)
    (c : Conversation.t) : bool :=
  (Conversation.hospital_id c =? hospitalId)%string
  && (Conversation.patient_phone c =? patientPhone)%string
  && cell_neq (Conversation.conversation_state c) "completed"
  && (twoHoursAgo <=? Conversation.last_message_at c).

(** [.order('created_at', { ascending: false })], by insertion; rows created
    at the same instant keep the order of the store. *)
Fixpoint insert_desc (c : Conversation.t) (sorted : list Conversation.t)
  : list Conversation.t :=
  match sorted with
  | [] => [c]
  | x :: rest =>
      if Conversation.created_at x <=? Conversation.created_at c
      then c :: sorted
      else x :: insert_desc c rest
  end.

Definition order_desc (rows : list Conversation.t) : list Conversation.t :=
  fold_right insert_desc [] rows.

(** Lines 136-145. *)
Definition selectConversation (rows : list Conversation.t)
    (hospitalId patientPhone : string) (twoHoursAgo : Z) : option Conversation.t :=
  single (limit 1 (order_desc (filter (active hospitalId patientPhone twoHoursAgo) rows))).

(** [.update(patch).eq('id', id)]. *)
Definition updateWhereId (id : string) (p : Conversation.Patch)
    (rows : list Conversation.t) : list Conversation.t :=
  map (fun c => if (Conversation.id c =? id)%string then Conversation.apply p c else c) rows.

(** ** The world around one request *)

(** What an awaited call gives: a value, or the error it throws. *)
Inductive Outcome (A : Type) : Type :=
| ok (a : A)
| thrown (message : string).
Arguments ok {A} a.
Arguments thrown {A} message.

(** What the handler reads from outside the request: the configuration
    (lines 12-13), the clock at each place it is read, the answer of the
    store to an insert, the answers of the three services and the reading
    the store makes of a filter given as text.  The store client is taken
    to be configured, and every store call other than the insert, whose
    error the handler checks, to go through. *)
Record Env : Type := mkWorld {
  TWILIO_ACCOUNT_SID : option string;
  TWILIO_AUTH_TOKEN : option string;
  now_received : Z;   (* line 51 *)
  now_lookup : Z;     (* line 134 *)
  now_inbound : Z;    (* line 178 *)
  now_touch : Z;      (* line 188 *)
  now_reply : Z;      (* line 235 *)
  createError : option string;
  created_id : string;
  created_time : Z;
  aiAnswer : Outcome AiResult.t;
  twilioAnswer : Outcome Json;
  appointmentAnswer : Outcome unit;
  orAnswer : string -> Hospital.t -> bool   (* line 85 *)
}.

(** A world in which the store matches no row on a filter text other than
    that of a plain number. *)
Definition mkEnv (sid token : option string)
    (received lookup inbound touch replied : Z)
    (error : option string) (id : string) (time : Z)
    (ai : Outcome AiResult.t) (twilio : Outcome Json)
    (appointment : Outcome unit) : Env :=
  mkWorld sid token received lookup inbound touch replied error id time
    ai twilio appointment (fun _ _ => false).

(** Body of the request to [whatsapp-ai-conversation] (lines 199-210). *)
Module AiRequest.
Record t : Type := mk {
  conversationId : string;
  patientPhone : string;
  hospitalId : string;
  hospitalName : string;
  message : Json;
  transcript : list Turn;
  conversationState : Json;
  existingSymptoms : Json;
  existingTriageLevel : Json;
  existingPatientName : Json
}.
End AiRequest.

(** Body of the request to [whatsapp-create-appointment] (lines 282-294). *)
Module AppointmentRequest.
Record t : Type := mk {
  conversationId : string;
  hospitalId : string;
  patientPhone : string;
  patientName : Json;
  symptoms : Json;
  triageLevel : Json;
  urgencyScore : Json;
  firstAidGiven : Json;
  preferredDate : Json;
  preferredTime : Json;
  transcript : list Turn
}.
End AppointmentRequest.

(** Form posted to Twilio (lines 355-360). *)
Module TwilioMessage.
Record t : Type := mk {
  accountSid : string;
  From : string;
  To : string;
  Body : Property
}.
End TwilioMessage.

Inductive Table : Type := t_hospitals | t_whatsapp_conversations.

(** Every call that leaves the handler, in the order made. *)
Inductive Event : Type :=
| ev_select (table : Table)
| ev_insert (p : Conversation.Patch)
| ev_update (id : string) (p : Conversation.Patch)
| ev_ai (request : AiRequest.t)
| ev_twilio (form : TwilioMessage.t)
| ev_appointment (request : AppointmentRequest.t).

Record State : Type := mkState {
  db : Database;
  trace : list Event
}.

(** Computations of the handler: they change the state and end in a value
    or in a thrown error; what was written before a throw stays written. *)
Definition M (A : Type) : Type := State -> State * Outcome A.

Definition ret {A : Type} (a : A) : M A := fun st => (st, ok a).

Definition bind {A B : Type} (m : M A) (k : A -> M B) : M B :=
  fun st =>
    match m st with
    | (st', ok a) => k a st'
    | (st', thrown e) => (st', thrown e)
    end.

Definition throw {A : Type} (message : string) : M A :=
  fun st => (st, thrown message).

Definition await {A : Type} (o : Outcome A) : M A := fun st => (st, o).

Definition emit (e : Event) : M unit :=
  fun st => (mkState (db st) (trace st ++ [e]), ok tt).

Definition rows : M (list Conversation.t) :=
  fun st => (st, ok (whatsapp_conversations (db st))).

Definition hospitalRows : M (list Hospital.t) :=
  fun st => (st, ok (hospitals (db st))).

Definition setRows (r : list Conversation.t) : M unit :=
  fun st => (mkState (mkDatabase (hospitals (db st)) r) (trace st), ok tt).

Notation "x <- m ;; k" := (bind m (fun x => k))
  (at level 61, m at next level, right associativity).
Notation "m ;;; k" := (bind m (fun _ => k))
  (at level 61, right associativity).

(** ** Requests and responses *)

(** The object [req.json()] gives (lines 47-52), property by property. *)
Module JsonData.
Record t : Type := mk {
  from : Property;
  to : Property;
  body : Property;
  message : Property;
  messageSid : Property;
  messageId : Property;
  numMedia : Property
}.
End JsonData.

(** The fields [req.formData()] gives (lines 58-63). *)
Module FormData.
Record t : Type := mk {
  From : option string;
  To : option string;
  Body : option string;
  MessageSid : option string;
  NumMedia : option string
}.
End FormData.

(** A request: its method, its [content-type] header, and what each of the
    two body readers gives on its body: the fields read, or the error
    thrown by the reader or by reading a property of null. *)
Record Request : Type := mkRequest {
  method : string;
  content_type : option string;
  json : Outcome JsonData.t;
  formData : Outcome FormData.t
}.

(** The message after lines 35-66.  [numMedia] is read there and never
    used, so it is not kept. *)
Module Message.
Record t : Type := mk {
  from : Json;
  to : Json;
  body : Json;
  messageSid : Json;
  isBaileysBot : bool
}.
End Message.

Inductive Body : Type :=
| no_body
| json_body (fields : list (string * Json))
| xml_body (markup : string).

Record Response : Type := mkResponse {
  status : Z;
  contentType : option string;
  body : Body
}.

(** [JSON.stringify] of an object literal: a property whose value is
    [undefined] is left out. *)
Fixpoint stringify (fields : list (string * Property)) : list (string * Json) :=
  match fields with
  | [] => []
  | (k, Some v) :: rest => (k, v) :: stringify rest
  | (_, None) :: rest => stringify rest
  end.

(** [x?.toString() || ''] on a form field. *)
Definition field (x : option string) : string :=
  match x with
  | Some s => s
  | None => EmptyString
  end.

(** Lines 43-66. *)
Definition isJson (req : Request) : bool :=
  includes "application/json" (field (content_type req)).

Definition readMessage (env : Env) (req : Request) : M Message.t :=
  if isJson req then
    jsonData <- await (json req) ;;
    ret (Message.mk
           (or_else (JsonData.from jsonData) (JStr EmptyString))
           (or_else (JsonData.to jsonData) (JStr EmptyString))
           (or_else (JsonData.body jsonData)
              (or_else (JsonData.message jsonData) (JStr EmptyString)))
           (or_else (JsonData.messageSid jsonData)
              (or_else (JsonData.messageId jsonData)
                 (JStr ("baileys-" ++ decimal (now_received env)))))
           true)
  else
    form <- await (formData req) ;;
    ret (Message.mk
           (JStr (field (FormData.From form)))
           (JStr (field (FormData.To form)))
           (JStr (field (FormData.Body form)))
           (JStr (field (FormData.MessageSid form)))
           false).

(** What a template literal can turn into a string.  An object that has a
    [toString] property of its own, which in a parsed body is never a
    function, cannot be converted; an array is converted element by
    element. *)
Fixpoint printable (v : Json) : bool :=
  match v with
  | JArr items => forallb printable items
  | JObj fields =>
      negb (existsb (fun entry => (fst entry =? "toString")%string) fields)
  | _ => true
  end.

(** Line 68: the message is written to the log. *)
Definition logMessage (msg : Message.t) : M unit :=
  if printable (Message.from msg) && printable (Message.to msg)
     && printable (Message.body msg)
  then ret tt
  else throw "Cannot convert object to primitive value".

(** Lines 71-72: [replace] is a method of strings only. *)
Definition stripped (variable : string) (address : Json) : M string :=
  match address with
  | JStr s => ret (normalize s)
  | _ => throw (variable ++ ".replace is not a function")
  end.

(** The XML declaration every TwiML answer starts with. *)
Definition quote : string := String (ascii_of_nat 34) EmptyString.

Definition xmlDeclaration : string :=
  "<?xml version=" ++ quote ++ "1.0" ++ quote
  ++ " encoding=" ++ quote ++ "UTF-8" ++ quote ++ "?>".

Definition notConfiguredText : string :=
  "Sorry, this service is not configured. Please contact the hospital directly.".

(** Lines 113-127. *)
Definition notConfigured (isBaileysBot : bool) : Response :=
  if isBaileysBot then
    mkResponse 200 (Some "application/json")
      (json_body (stringify
         [ ("success", Some (JBool false));
           ("error", Some (JStr "Service not configured"));
           ("response", Some (JStr notConfiguredText)) ]))
  else
    mkResponse 200 (Some "text/xml")
      (xml_body (xmlDeclaration ++ "<Response><Message>"
                 ++ notConfiguredText ++ "</Message></Response>")).

(** ** The handler *)

(** Lines 78-107: [hospitalId] and [hospitalName] after the lookups. *)
Definition resolveHospital (env : Env) (hospitalWhatsApp : string)
  : M (option string * string) :=
  emit (ev_select t_hospitals) ;;;
  table <- hospitalRows ;;
  match selectHospital (orAnswer env) table hospitalWhatsApp with
  | Some hospital => ret (Some (Hospital.id hospital), Hospital.name hospital)
  | None =>
      emit (ev_select t_hospitals) ;;;
      match selectFallbackHospital table with
      | Some fallbackHospital =>
          ret (Some (Hospital.id fallbackHospital), Hospital.name fallbackHospital)
      | None => ret (None, "the hospital")
      end
  end.

(** Modelled from the spec: the column defaults of [whatsapp_conversations],
    whose declaration is not part of the source.  A new session has all
    clinical fields unset and [appointmentCreated] false; the store gives it
    its id and its two timestamps. *)
Definition blankRow (env : Env) : Conversation.t :=
  Conversation.mk (created_id env) EmptyString EmptyString
    JNull JNull JNull JNull JNull JNull (JBool false) None
    (created_time env) (created_time env).

(** Modelled from the spec: the declaration of [whatsapp_conversations] is
    not part of the source.  The id is the identity of a session, so the
    store does not take an insert under an id another row has: it answers
    with an error, as it does when it refuses the insert for any other
    reason. *)
Definition insertError (env : Env) (table : list Conversation.t)
  : option string :=
  match createError env with
  | Some e => Some e
  | None =>
      if existsb (fun c => (Conversation.id c =? created_id env)%string) table
      then Some "duplicate key value violates unique constraint"
      else None
  end.

(** Lines 154-159. *)
Definition newConversationColumns (hospitalId patientPhone : string)
  : Conversation.Patch :=
  [ Conversation.set_hospital_id hospitalId;
    Conversation.set_patient_phone patientPhone;
    Conversation.set_conversation_state (JStr "greeting");
    Conversation.set_transcript [] ].

(** Lines 130-170: find or create the conversation session. *)
Definition resolveSession (env : Env) (hospitalId patientPhone : string)
  : M Conversation.t :=
  let twoHoursAgo := now_lookup env - window in
  emit (ev_select t_whatsapp_conversations) ;;;
  table <- rows ;;
  match selectConversation table hospitalId patientPhone twoHoursAgo with
  | Some existingConversation => ret existingConversation
  | None =>
      let columns := newConversationColumns hospitalId patientPhone in
      emit (ev_insert columns) ;;;
      match insertError env table with
      | Some e => throw e
      | None =>
          let newConversation := Conversation.apply columns (blankRow env) in
          setRows (table ++ [newConversation]) ;;;
          ret newConversation
      end
  end.

(** Lines 173-181. *)
Definition updatedTranscript (conversation : Conversation.t)
    (body messageSid : Json) (now : Z) : list Turn :=
  match Conversation.transcript conversation with
  | Some turns => turns
  | None => []
  end ++ [mkTurn patient (Some body) now (Some messageSid)].

(** Lines 230-237. *)
Definition finalTranscript (updated : list Turn) (aiResult : AiResult.t)
    (now : Z) : list Turn :=
  updated ++ [mkTurn assistant (AiResult.response aiResult) now None].

(** [supabase.from('whatsapp_conversations').update(p).eq('id', id)]. *)
Definition update (id : string) (p : Conversation.Patch) : M unit :=
  emit (ev_update id p) ;;;
  table <- rows ;;
  setRows (updateWhereId id p table).

(** Lines 186-189. *)
Definition inboundColumns (updated : list Turn) (now : Z) : Conversation.Patch :=
  [ Conversation.set_transcript updated;
    Conversation.set_last_message_at now ].

(** Lines 250-258. *)
Definition mergedColumns (final : list Turn) (m : Merged) : Conversation.Patch :=
  [ Conversation.set_transcript final;
    Conversation.set_conversation_state (newState m);
    Conversation.set_collected_symptoms (collectedSymptoms m);
    Conversation.set_triage_level (triageLevel m);
    Conversation.set_urgency_score (urgencyScore m);
    Conversation.set_first_aid_given (firstAidGiven m);
    Conversation.set_patient_name (patientName m) ].

(** [!TWILIO_ACCOUNT_SID]. *)
Definition unset (variable : option string) : bool :=
  match variable with
  | None => true
  | Some s => (s =? EmptyString)%string
  end.

(** Lines 346-374. *)
Definition sendWhatsAppMessageViaTwilio (env : Env) (from to : string)
    (body : Property) : M Json :=
  if unset (TWILIO_ACCOUNT_SID env) || unset (TWILIO_AUTH_TOKEN env)
  then ret JNull
  else
    emit (ev_twilio (TwilioMessage.mk (field (TWILIO_ACCOUNT_SID env))
                       ("whatsapp:+" ++ from) ("whatsapp:+" ++ to) body)) ;;;
    await (twilioAnswer env).

(** Lines 199-210. *)
Definition aiRequest (conversation : Conversation.t)
    (patientPhone hospitalId hospitalName : string) (body : Json)
    (updated : list Turn) : AiRequest.t :=
  AiRequest.mk (Conversation.id conversation) patientPhone hospitalId hospitalName
    body updated
    (Conversation.conversation_state conversation)
    (Conversation.collected_symptoms conversation)
    (Conversation.triage_level conversation)
    (Conversation.patient_name conversation).

(** Lines 282-294. *)
Definition appointmentRequest (conversation : Conversation.t)
    (hospitalId patientPhone : string) (m : Merged) (final : list Turn)
  : AppointmentRequest.t :=
  AppointmentRequest.mk (Conversation.id conversation) hospitalId patientPhone
    (or_val (patientName m) (JStr "WhatsApp Patient"))
    (collectedSymptoms m) (triageLevel m) (urgencyScore m) (firstAidGiven m)
    (preferredDate m) (preferredTime m) final.

(** Lines 299-316. *)
Definition reply (isBaileysBot : bool) (aiResult : AiResult.t)
    (conversation : Conversation.t) (m : Merged) : Response :=
  if isBaileysBot then
    mkResponse 200 (Some "application/json")
      (json_body (stringify
         [ ("success", Some (JBool true));
           ("response", AiResult.response aiResult);
           ("conversationId", Some (JStr (Conversation.id conversation)));
           ("conversationState", Some (newState m)) ]))
  else
    mkResponse 200 (Some "text/xml")
      (xml_body (xmlDeclaration ++ "<Response></Response>")).

Definition errorText : string :=
  "Sorry, there was an error processing your message. Please try again.".

(** Lines 318-343. *)
Definition errorReply (req : Request) (message : string) : Response :=
  if isJson req then
    mkResponse 500 (Some "application/json")
      (json_body (stringify
         [ ("success", Some (JBool false));
           ("error", Some (JStr message));
           ("response", Some (JStr errorText)) ]))
  else
    mkResponse 200 (Some "text/xml")
      (xml_body (xmlDeclaration ++ "<Response><Message>"
                 ++ errorText ++ "</Message></Response>")).

(** Lines 216-316: what follows the answer of the AI function. *)
Definition conclude (env : Env) (msg : Message.t)
    (hospitalId patientPhone hospitalWhatsApp : string)
    (conversation : Conversation.t) (updated : list Turn)
    (aiResult : AiResult.t) : M Response :=
  (if Message.isBaileysBot msg
   then ret JNull
   else sendWhatsAppMessageViaTwilio env hospitalWhatsApp patientPhone
          (AiResult.response aiResult)) ;;;
  let final := finalTranscript updated aiResult (now_reply env) in
  let m := merge conversation aiResult in
  update (Conversation.id conversation) (mergedColumns final m) ;;;
  (if shouldCreateAppointment conversation aiResult m
   then
     emit (ev_appointment
             (appointmentRequest conversation hospitalId patientPhone m final)) ;;;
     await (appointmentAnswer env)
   else ret tt) ;;;
  ret (reply (Message.isBaileysBot msg) aiResult conversation m).

(** Lines 130-214: the session, the inbound turn and the call to the AI
    function. *)
Definition converse (env : Env) (msg : Message.t)
    (hospitalId hospitalName patientPhone hospitalWhatsApp : string)
  : M Response :=
  conversation <- resolveSession env hospitalId patientPhone ;;
  let updated :=
    updatedTranscript conversation (Message.body msg) (Message.messageSid msg)
      (now_inbound env) in
  update (Conversation.id conversation) (inboundColumns updated (now_touch env)) ;;;
  emit (ev_ai (aiRequest conversation patientPhone hospitalId hospitalName
                 (Message.body msg) updated)) ;;;
  aiResult <- await (aiAnswer env) ;;
  conclude env msg hospitalId patientPhone hospitalWhatsApp conversation updated
    aiResult.

(** Lines 35-316: the body of the [try]. *)
Definition handle (env : Env) (req : Request) : M Response :=
  msg <- readMessage env req ;;
  logMessage msg ;;;
  patientPhone <- stripped "from" (Message.from msg) ;;
  hospitalWhatsApp <- stripped "to" (Message.to msg) ;;
  found <- resolveHospital env hospitalWhatsApp ;;
  let '(hospitalId, hospitalName) := found in
  if noHospital hospitalId
  then ret (notConfigured (Message.isBaileysBot msg))
  else converse env msg (field hospitalId) hospitalName patientPhone
         hospitalWhatsApp.

(** Lines 28-344: the handler given to [serve]. *)
Definition serve (env : Env) (req : Request) (st : State) : State * Response :=
  if (method req =? "OPTIONS")%string
  then (st, mkResponse 200 None no_body)
  else
    match handle env req st with
    | (st', ok response) => (st', response)
    | (st', thrown message) => (st', errorReply req message)
    end.

(** ** Sample data *)

Module Sample.

Definition session (id phone : string) (state : Json) (created last : Z)
  : Conversation.t :=
  Conversation.mk id "h1" phone state JNull JNull JNull JNull JNull
    (JBool false) (Some []) created last.

Definition hospital : Hospital.t :=
  Hospital.mk "h1" "General" true (Some "+15559876543") (Some "hospital").

Definition answer : AiResult.t :=
  AiResult.mk (Some (JStr "Hello")) None None None None None None None None None.

Definition env : Env :=
  mkEnv None None 10000000 10000000 10000001 10000002 10000003
    None "s-new" 10000000 (ok answer) (ok JNull) (ok tt).

Definition twilioRequest (from to text : string) : Request :=
  mkRequest "POST" (Some "application/x-www-form-urlencoded")
    (thrown "Unexpected token")
    (ok (FormData.mk (Some from) (Some to) (Some text) (Some "SM1") (Some "0"))).

Definition baileysRequest (from to text : string) : Request :=
  mkRequest "POST" (Some "application/json")
    (ok (JsonData.mk (Some (JStr from)) (Some (JStr to)) (Some (JStr text))
           None None None None))
    (thrown "not a form").

Definition empty : State := mkState (mkDatabase [hospital] []) [].

(** A session that already has an urgency score, a name and a state. *)
Definition scored : Conversation.t :=
  Conversation.mk "s1" "h1" "15551234567" (JStr "triage")
    (JArr [JStr "fever"]) (JStr "MODERATE") (JNum 7) (JStr "rest") (JStr "Ada")
    (JBool false) (Some []) 100 200.

(** An update whose urgency score is the number zero. *)
Definition zeroScore : AiResult.t :=
  AiResult.mk (Some (JStr "ok")) None None None None (Some (JNum 0)) None None
    None None.

(** An update that fills every merged field. *)
Definition full : AiResult.t :=
  AiResult.mk (Some (JStr "ok")) (Some (JStr "collecting"))
    (Some (JArr [JStr "cough"])) (Some (JStr "LOW")) (Some (JStr "Bea"))
    (Some (JNum 2)) (Some (JStr "fluids")) None (Some (JStr "2026-01-01"))
    (Some (JStr "09:00")).

(** An update of the highest tier that asks for an appointment. *)
Definition criticalWithRequest : AiResult.t :=
  AiResult.mk (Some (JStr "Call an ambulance")) None
    (Some (JArr [JStr "chest pain"])) (Some (JStr "CRITICAL")) None None None
    (Some (JBool true)) None None.

(** An update of the highest tier that does not ask for one. *)
Definition critical : AiResult.t :=
  AiResult.mk (Some (JStr "Call an ambulance")) None
    (Some (JArr [JStr "chest pain"])) (Some (JStr "CRITICAL")) None None None
    None None None.

(** A fresh session, as the handler creates it. *)
Definition fresh : Conversation.t :=
  Conversation.apply (newConversationColumns "h1" "15551234567") (blankRow env).

(** A store with one session of the sender, not completed, last touched
    three hours before [env] looks it up. *)
Definition stale : State :=
  mkState
    (mkDatabase [hospital]
       [session "s-old" "15551234567" (JStr "collecting") 100 (10000000 - 10800000)])
    [].

(** A store with two live sessions of the sender and a completed one. *)
Definition busy : State :=
  mkState
    (mkDatabase [hospital]
       [ session "s-a" "15551234567" (JStr "collecting") 9000000 9999000;
         session "s-b" "15551234567" (JStr "triage") 9500000 9999500;
         session "s-c" "15551234567" (JStr "completed") 9900000 9999900 ])
    [].

(** Two tenants of the default organization type, neither on the number
    written to: the first has WhatsApp switched off, the second on. *)
Definition closed : Hospital.t :=
  Hospital.mk "h-closed" "Closed Clinic" false (Some "+15550000000") (Some "hospital").

Definition open : Hospital.t :=
  Hospital.mk "h-open" "Open Clinic" true (Some "+15550001111") (Some "hospital").

Definition misrouted : State := mkState (mkDatabase [closed; open] []) [].

(** One number held by two enabled tenants, bare and with the sign. *)
Definition bare : Hospital.t :=
  Hospital.mk "h-bare" "Bare" true (Some "15559876543") (Some "clinic").

Definition signed : Hospital.t :=
  Hospital.mk "h-signed" "Signed" true (Some "+15559876543") (Some "clinic").


(** A message that came through Twilio. *)
Definition hello : Message.t :=
  Message.mk (JStr "whatsapp:+15551234567") (JStr "whatsapp:+15559876543")
    (JStr "I have a fever") (JStr "SM1") false.

(** The newest live session of [busy]. *)
Definition newest : Conversation.t :=
  session "s-b" "15551234567" (JStr "triage") 9500000 9999500.

End Sample.

(** ** Vocabulary of the properties *)

(** What the four filters of the lookup ask of a row, at the instant [now]
    of the lookup. *)
Definition live (hospitalId patientPhone : string) (now : Z)
    (c : Conversation.t) : Prop :=
  Conversation.hospital_id c = hospitalId
  /\ Conversation.patient_phone c = patientPhone
  /\ Conversation.conversation_state c <> JNull
  /\ Conversation.conversation_state c <> JStr "completed"
  /\ now - 7200000 <= Conversation.last_message_at c.

(** The first row of a list is created no earlier than any other. *)
Definition newest_first (l : list Conversation.t) : Prop :=
  match l with
  | [] => True
  | x :: _ =>
      forall y, In y l -> Conversation.created_at y <= Conversation.created_at x
  end.

(** The appointment flag of each session, row by row. *)
Definition flags (table : list Conversation.t) : list (string * Json) :=
  map (fun c => (Conversation.id c, Conversation.appointment_created c)) table.

(** An insert or an update that names the column. *)
Definition writes (col : Conversation.Column) (e : Event) : Prop :=
  match e with
  | ev_insert p => In col (Conversation.columns p)
  | ev_update _ p => In col (Conversation.columns p)
  | _ => False
  end.

(** The answer of the AI function without its preferred slot. *)
Definition forgetPreferred (a : AiResult.t) : AiResult.t :=
  AiResult.mk (AiResult.response a) (AiResult.newState a) (AiResult.symptoms a)
    (AiResult.triageLevel a) (AiResult.patientName a) (AiResult.urgencyScore a)
    (AiResult.firstAid a) (AiResult.createAppointment a) None None.

(** The same world with another answer of the AI function. *)
Definition withAiAnswer (env : Env) (answer : Outcome AiResult.t) : Env :=
  mkWorld (TWILIO_ACCOUNT_SID env) (TWILIO_AUTH_TOKEN env) (now_received env)
    (now_lookup env) (now_inbound env) (now_touch env) (now_reply env)
    (createError env) (created_id env) (created_time env)
    answer (twilioAnswer env) (appointmentAnswer env) (orAnswer env).

(** A call with the preferred slot of an appointment request blanked. *)
Definition erasePreferred (e : Event) : Event :=
  match e with
  | ev_appointment r =>
      ev_appointment
        (AppointmentRequest.mk (AppointmentRequest.conversationId r)
           (AppointmentRequest.hospitalId r) (AppointmentRequest.patientPhone r)
           (AppointmentRequest.patientName r) (AppointmentRequest.symptoms r)
           (AppointmentRequest.triageLevel r) (AppointmentRequest.urgencyScore r)
           (AppointmentRequest.firstAidGiven r) JNull JNull
           (AppointmentRequest.transcript r))
  | _ => e
  end.

(** The columns of the three writes the handler makes. *)
Definition createdColumns : list Conversation.Column :=
  [ Conversation.c_hospital_id; Conversation.c_patient_phone;
    Conversation.c_conversation_state; Conversation.c_transcript ].

Definition touchedColumns : list Conversation.Column :=
  [ Conversation.c_transcript; Conversation.c_last_message_at ].

Definition mergedColumnNames : list Conversation.Column :=
  [ Conversation.c_transcript; Conversation.c_conversation_state;
    Conversation.c_collected_symptoms; Conversation.c_triage_level;
    Conversation.c_urgency_score; Conversation.c_first_aid_given;
    Conversation.c_patient_name ].

(** The same world with Twilio configured and answering. *)
Definition withTwilio (env : Env) (sid token : string) (answer : Json) : Env :=
  mkWorld (Some sid) (Some token) (now_received env)
    (now_lookup env) (now_inbound env) (now_touch env) (now_reply env)
    (createError env) (created_id env) (created_time env)
    (aiAnswer env) (ok answer) (appointmentAnswer env) (orAnswer env).

Definition isTwilioCall (e : Event) : bool :=
  match e with
  | ev_twilio _ => true
  | _ => false
  end.

(** A write is one of the three the source spells out. *)
Definition knownWrite (e : Event) : Prop :=
  match e with
  | ev_insert p => Conversation.columns p = createdColumns
  | ev_update _ p =>
      Conversation.columns p = touchedColumns
      \/ Conversation.columns p = mergedColumnNames
  | _ => True
  end.

(** The content type each channel is answered with. *)
Definition channelType (req : Request) : string :=
  if isJson req then "application/json" else "text/xml".

Definition isAiCall (e : Event) : bool :=
  match e with
  | ev_ai _ => true
  | _ => false
  end.

Definition isAppointmentCall (e : Event) : bool :=
  match e with
  | ev_appointment _ => true
  | _ => false
  end.

Definition isInsert (e : Event) : bool :=
  match e with
  | ev_insert _ => true
  | _ => false
  end.

Definition isUpdate (e : Event) : bool :=
  match e with
  | ev_update _ _ => true
  | _ => false
  end.

(** The columns that say whose session a row is and when it began. *)
Definition identityColumns : list Conversation.Column :=
  [ Conversation.c_id; Conversation.c_hospital_id;
    Conversation.c_patient_phone; Conversation.c_created_at ].

(** More sample data. *)
Module More.

(** A world in which Twilio is configured and answers. *)
Definition twilioEnv : Env := withTwilio Sample.env "AC1" "secret" (JObj []).

(** A world in which the store refuses the insert. *)
Definition refusing : Env :=
  mkEnv None None 10000000 10000000 10000001 10000002 10000003
    (Some "duplicate key") "s-new" 10000000 (ok Sample.answer) (ok JNull) (ok tt).

(** A world in which the AI function fails. *)
Definition aiDown : Env := withAiAnswer Sample.env (thrown "fetch failed").

(** A world in which Twilio is configured and fails. *)
Definition twilioDown : Env :=
  mkEnv (Some "AC1") (Some "secret") 10000000 10000000 10000001 10000002 10000003
    None "s-new" 10000000 (ok Sample.answer) (thrown "twilio down") (ok tt).

(** A world in which the appointment function fails. *)
Definition appointmentDown : Env :=
  mkEnv None None 10000000 10000000 10000001 10000002 10000003
    None "s-new" 10000000 (ok Sample.criticalWithRequest) (ok JNull)
    (thrown "appointment down").

(** The state after the lookup of the session in [Sample.busy]. *)
Definition lookedUp : State :=
  mkState (db Sample.busy) [ev_select t_whatsapp_conversations].

(** A session whose appointment was created. *)
Definition booked : Conversation.t :=
  Conversation.mk "s1" "h1" "15551234567" (JStr "triage")
    (JArr [JStr "fever"]) (JStr "MODERATE") (JNum 7) (JStr "rest") (JStr "Ada")
    (JBool true) (Some []) 100 200.

(** A JSON request whose sender is a number. *)
Definition numericSender : Request :=
  mkRequest "POST" (Some "application/json")
    (ok (JsonData.mk (Some (JNum 15551234567)) (Some (JStr "15559876543"))
           (Some (JStr "hi")) None None None None))
    (thrown "not a form").

(** A message that came from the Baileys bot. *)
Definition botHello : Message.t :=
  Message.mk (JStr "15551234567") (JStr "15559876543") (JStr "I have a fever")
    (JStr "B1") true.

(** A session of the sender with no state, touched a second before [env]
    looks it up, and a store that holds just that session. *)
Definition stateless : Conversation.t :=
  Sample.session "s-null" "15551234567" JNull 9000000 9999000.

Definition unsettled : State :=
  mkState (mkDatabase [Sample.hospital] [stateless]) [].

(** A Twilio request whose form has no field at all. *)
Definition blankForm : Request :=
  mkRequest "POST" (Some "application/x-www-form-urlencoded")
    (thrown "Unexpected token") (ok (FormData.mk None None None None None)).

End More.

(** The acknowledgment Twilio gets when the reply went out through its
    API (lines 312-315). *)
Definition emptyTwiml : Response :=
  mkResponse 200 (Some "text/xml")
    (xml_body (xmlDeclaration ++ "<Response></Response>")).

(** * Properties *)

(** ** Running the handler *)

(** The first message of a sender to a configured tenant: a session is
    created for the pair and holds both turns once the request is done. *)
Example fever_creates_session :
  let '(st, r) :=
    serve Sample.env
      (Sample.twilioRequest "whatsapp:+15551234567" "whatsapp:+15559876543"
         "I have a fever") Sample.empty in
  map Conversation.id (whatsapp_conversations (db st)) = ["s-new"]
  /\ map Conversation.hospital_id (whatsapp_conversations (db st)) = ["h1"]
  /\ map Conversation.patient_phone (whatsapp_conversations (db st)) = ["15551234567"]
  /\ map (fun c => option_map (@List.length Turn) (Conversation.transcript c))
       (whatsapp_conversations (db st)) = [Some 2%nat]
  /\ status r = 200.
Proof. vm_compute. repeat split. Qed.

(** ** State merge *)

Lemma truthy_false_iff (v : Json) :
  truthy v = false <->
  v = JNull \/ v = JBool false \/ v = JNum 0 \/ v = JStr EmptyString.
Proof.
  split.
  - destruct v as [ | b | n | s | l | f ]; simpl; intro H; try discriminate.
    + now left.
    + destruct b; [discriminate | now right; left].
    + apply negb_false_iff, Z.eqb_eq in H. subst. now right; right; left.
    + apply negb_false_iff, String.eqb_eq in H. subst. now right; right; right.
  - intros [-> | [-> | [-> | ->]]]; reflexivity.
Qed.

Lemma or_else_truthy (a : Property) (b v : Json) :
  a = Some v -> truthy v = true -> or_else a b = v.
Proof. intros -> H. unfold or_else. now rewrite H. Qed.

Lemma or_else_falsy (a : Property) (b v : Json) :
  a = Some v -> truthy v = false -> or_else a b = b.
Proof. intros -> H. unfold or_else. now rewrite H. Qed.

Lemma or_else_undefined (b : Json) : or_else None b = b.
Proof. reflexivity. Qed.

(** C1, as stated, fails: an urgency score of zero is present in the update
    (it is a number, not null), yet the merge keeps the session's 7. *)
Lemma merge_present_zero_loses :
  present (AiResult.urgencyScore Sample.zeroScore)
  /\ AiResult.urgencyScore Sample.zeroScore = Some (JNum 0)
  /\ Conversation.urgency_score Sample.scored = JNum 7
  /\ urgencyScore (merge Sample.scored Sample.zeroScore) = JNum 7
  /\ urgencyScore (merge Sample.scored Sample.zeroScore) <> JNum 0.
Proof.
  repeat split; try reflexivity.
  - exists (JNum 0). split; [reflexivity | discriminate].
  - discriminate.
Qed.

(** C1, amended: for each of the six merged fields, the update's value wins
    when it is truthy; when it is missing, null or another falsy value
    (false, 0, the empty string) the merge gives the session's prior value,
    unchanged. *)
Theorem merge_truthy_wins
    (conversation : Conversation.t) (aiResult : AiResult.t)
    (ext : AiResult.t -> Property) (old : Conversation.t -> Json)
    (new : Merged -> Json) :
  In (ext, old, new) merged_fields ->
  (forall v, ext aiResult = Some v -> truthy v = true ->
             new (merge conversation aiResult) = v)
  /\ (forall v, ext aiResult = Some v -> truthy v = false ->
                new (merge conversation aiResult) = old conversation)
  /\ (ext aiResult = None ->
      new (merge conversation aiResult) = old conversation).
Proof.
  intro Hin. simpl in Hin.
  repeat (destruct Hin as [Heq | Hin];
          [ inversion Heq; subst; clear Heq; simpl;
            repeat split; intros;
            eauto using or_else_truthy, or_else_falsy;
            match goal with H : _ = None |- _ => rewrite H; reflexivity end
          | ]).
  contradiction.
Qed.

Lemma merge_truthy_wins_witness :
  urgencyScore (merge Sample.scored Sample.full) = JNum 2
  /\ urgencyScore (merge Sample.scored Sample.zeroScore) = JNum 7
  /\ patientName (merge Sample.scored Sample.zeroScore) = JStr "Ada".
Proof.
  split; [ | split ].
  - apply (proj1 (merge_truthy_wins Sample.scored Sample.full
                    AiResult.urgencyScore Conversation.urgency_score urgencyScore
                    (or_intror (or_intror (or_intror (or_introl eq_refl)))))
             (JNum 2)); reflexivity.
  - apply (proj1 (proj2 (merge_truthy_wins Sample.scored Sample.zeroScore
                    AiResult.urgencyScore Conversation.urgency_score urgencyScore
                    (or_intror (or_intror (or_intror (or_introl eq_refl))))))
             (JNum 0)); reflexivity.
  - apply (proj2 (proj2 (merge_truthy_wins Sample.scored Sample.zeroScore
                    AiResult.patientName Conversation.patient_name patientName
                    (or_intror (or_intror (or_intror (or_intror (or_intror
                       (or_introl eq_refl)))))))));
      reflexivity.
Defined.

(** ** Appointment trigger *)

(** C2, as stated, fails: the merged triage level is CRITICAL, no
    appointment was created yet, the update carries [createAppointment:
    true], and the trigger fires; the handler sends the appointment
    request. *)
Lemma critical_with_request_fires :
  triageLevel (merge Sample.fresh Sample.criticalWithRequest) = JStr "CRITICAL"
  /\ shouldCreateAppointment Sample.fresh Sample.criticalWithRequest
       (merge Sample.fresh Sample.criticalWithRequest) = true
  /\ (let env :=
        mkEnv None None 0 10000000 10000001 10000002 10000003 None "s-new"
          10000000 (ok Sample.criticalWithRequest) (ok JNull) (ok tt) in
      let st :=
        fst (serve env
               (Sample.baileysRequest "15551234567" "15559876543" "chest pain")
               Sample.empty) in
      existsb (fun e => match e with
                        | ev_appointment r =>
                            match AppointmentRequest.triageLevel r with
                            | JStr t => (t =? "CRITICAL")%string
                            | _ => false
                            end
                        | _ => false
                        end) (trace st) = true).
Proof. vm_compute. repeat split. Qed.

(** C2, amended: when the merged triage level is CRITICAL the trigger fires
    exactly when no appointment was created yet and the update's
    [createAppointment] is the boolean true; without that flag it never
    fires at that level, whatever the other fields are. *)
Theorem critical_fires_only_on_request
    (conversation : Conversation.t) (aiResult : AiResult.t) (m : Merged) :
  triageLevel m = JStr "CRITICAL" ->
  (shouldCreateAppointment conversation aiResult m = true <->
   truthy (Conversation.appointment_created conversation) = false
   /\ AiResult.createAppointment aiResult = Some (JBool true))
  /\ (AiResult.createAppointment aiResult <> Some (JBool true) ->
      shouldCreateAppointment conversation aiResult m = false).
Proof.
  intro Hcrit. unfold shouldCreateAppointment. rewrite Hcrit. simpl.
  rewrite andb_false_r, orb_false_r.
  assert (Hreq : is_true (AiResult.createAppointment aiResult) = true <->
                 AiResult.createAppointment aiResult = Some (JBool true)).
  { unfold is_true.
    destruct (AiResult.createAppointment aiResult) as [[ | [] | | | | ] | ];
      split; intro H; try discriminate; reflexivity. }
  split.
  - rewrite andb_true_iff, negb_true_iff, Hreq. tauto.
  - intro Hno. apply andb_false_iff. right.
    destruct (is_true (AiResult.createAppointment aiResult)) eqn:E; [ | reflexivity].
    exfalso. apply Hno, Hreq. reflexivity.
Qed.

Lemma critical_fires_only_on_request_witness :
  shouldCreateAppointment Sample.fresh Sample.critical
    (merge Sample.fresh Sample.critical) = false.
Proof.
  apply (proj2 (critical_fires_only_on_request Sample.fresh Sample.critical
                  (merge Sample.fresh Sample.critical) eq_refl)).
  discriminate.
Defined.

(** Below the highest tier the trigger fires as soon as symptoms and a
    triage level are there. *)
Example moderate_fires :
  shouldCreateAppointment Sample.fresh
    (AiResult.mk (Some (JStr "ok")) None (Some (JObj [("fever", JBool true)]))
       (Some (JStr "MODERATE")) None None None None None None)
    (merge Sample.fresh
       (AiResult.mk (Some (JStr "ok")) None (Some (JObj [("fever", JBool true)]))
          (Some (JStr "MODERATE")) None None None None None None)) = true.
Proof. reflexivity. Qed.

(** ** Session resolution *)

Lemma cell_neq_true (v : Json) (s : string) :
  cell_neq v s = true <-> v <> JNull /\ v <> JStr s.
Proof.
  destruct v as [ | b | n | t | l | f ]; simpl;
    try (split; [intros _; split; discriminate | reflexivity]).
  - split; [discriminate | intros [H _]; now elim H].
  - rewrite negb_true_iff. split.
    + intro H. split; [discriminate | ].
      intro E. inversion E; subst. now rewrite String.eqb_refl in H.
    + intros [_ H]. apply String.eqb_neq. congruence.
Qed.

Lemma active_live (hospitalId patientPhone : string) (now : Z)
    (c : Conversation.t) :
  active hospitalId patientPhone (now - window) c = true
  <-> live hospitalId patientPhone now c.
Proof.
  unfold active, live. change window with 7200000.
  rewrite !andb_true_iff, !String.eqb_eq, cell_neq_true, Z.leb_le. tauto.
Qed.

Section Ordering.

Implicit Types (c x : Conversation.t) (l : list Conversation.t).

Lemma insert_desc_In c x l : In x (insert_desc c l) <-> x = c \/ In x l.
Proof.
  induction l as [ | y l IH ]; simpl.
  - intuition.
  - destruct (Conversation.created_at y <=? Conversation.created_at c); simpl.
    + intuition.
    + rewrite IH. intuition.
Qed.

Lemma order_desc_In x l : In x (order_desc l) <-> In x l.
Proof.
  induction l as [ | y l IH ]; simpl; [tauto | ].
  rewrite insert_desc_In, IH. intuition.
Qed.

Lemma insert_desc_newest_first c l :
  newest_first l -> newest_first (insert_desc c l).
Proof.
  destruct l as [ | x l ]; simpl; intro H.
  - intros y [<- | []]. lia.
  - destruct (Conversation.created_at x <=? Conversation.created_at c) eqn:E.
    + apply Z.leb_le in E. intros y [<- | Hy]; [lia | ].
      specialize (H y Hy). lia.
    + apply Z.leb_gt in E. intros y [<- | Hy].
      * lia.
      * apply insert_desc_In in Hy. destruct Hy as [-> | Hy]; [lia | ].
        apply H. now right.
Qed.

Lemma order_desc_newest_first l : newest_first (order_desc l).
Proof.
  induction l as [ | x l IH ]; simpl; [exact I | ].
  now apply insert_desc_newest_first.
Qed.

Lemma single_limit_1 {A : Type} (l : list A) : single (limit 1 l) = hd_error l.
Proof. destruct l as [ | a [ | b l ]]; reflexivity. Qed.

End Ordering.

Section Lookup.

Variables (hospitalId patientPhone : string) (now : Z).
Variable table : list Conversation.t.

Lemma selectConversation_Some (c : Conversation.t) :
  selectConversation table hospitalId patientPhone (now - window) = Some c ->
  In c table
  /\ live hospitalId patientPhone now c
  /\ forall c', In c' table -> live hospitalId patientPhone now c' ->
                Conversation.created_at c' <= Conversation.created_at c.
Proof.
  unfold selectConversation. rewrite single_limit_1. intro H.
  pose proof (order_desc_newest_first
                (filter (active hospitalId patientPhone (now - window)) table)) as Hn.
  destruct (order_desc _) as [ | x l ] eqn:E; [discriminate | ].
  inversion H; subst x; clear H.
  assert (Hin : forall y, In y (c :: l) <->
                  In y table /\ live hospitalId patientPhone now y).
  { intro y. rewrite <- E, order_desc_In, filter_In, active_live. tauto. }
  destruct (proj1 (Hin c) (or_introl eq_refl)) as [Hc Hl].
  repeat split; try assumption; try apply Hl.
  intros c' Hc' Hl'. apply Hn, Hin. now split.
Qed.

Lemma selectConversation_None :
  selectConversation table hospitalId patientPhone (now - window) = None <->
  forall c, In c table -> ~ live hospitalId patientPhone now c.
Proof.
  unfold selectConversation. rewrite single_limit_1.
  destruct (order_desc _) as [ | x l ] eqn:E; simpl.
  - split; [ | reflexivity]. intros _ c Hc Hl.
    assert (In c (order_desc
              (filter (active hospitalId patientPhone (now - window)) table))) as Hin.
    { rewrite order_desc_In, filter_In, active_live. now split. }
    rewrite E in Hin. exact Hin.
  - split; [discriminate | ]. intro H. exfalso.
    assert (In x (order_desc
              (filter (active hospitalId patientPhone (now - window)) table))) as Hin.
    { rewrite E. now left. }
    rewrite order_desc_In, filter_In, active_live in Hin.
    destruct Hin as [Hx Hl]. exact (H x Hx Hl).
Qed.

Lemma selectConversation_found (c : Conversation.t) :
  In c table -> live hospitalId patientPhone now c ->
  exists e, selectConversation table hospitalId patientPhone (now - window) = Some e.
Proof.
  intros Hc Hl.
  destruct (selectConversation table hospitalId patientPhone (now - window))
    as [e | ] eqn:E; [now exists e | ].
  exfalso. exact (proj1 selectConversation_None E c Hc Hl).
Qed.

End Lookup.

Lemma insertError_None (env : Env) (table : list Conversation.t) :
  insertError env table = None <->
  createError env = None /\ ~ In (created_id env) (map Conversation.id table).
Proof.
  unfold insertError. destruct (createError env) as [e | ].
  - split; [discriminate | intros [H _]; discriminate].
  - destruct (existsb _ table) eqn:E.
    + split; [discriminate | ]. intros [_ H]. exfalso. apply H.
      apply existsb_exists in E. destruct E as (c & Hc & Hid).
      apply String.eqb_eq in Hid. rewrite <- Hid. now apply in_map.
    + split; [ | reflexivity]. intros _. split; [reflexivity | ].
      intro Hin. apply in_map_iff in Hin. destruct Hin as (c & Hid & Hc).
      assert (Hex : existsb (fun c => (Conversation.id c =? created_id env)%string)
                      table = true).
      { apply existsb_exists. exists c. split; [exact Hc | ].
        now apply String.eqb_eq. }
      congruence.
Qed.

Lemma insertError_refused (env : Env) (table : list Conversation.t) (e : string) :
  createError env = Some e -> insertError env table = Some e.
Proof. intro H. unfold insertError. now rewrite H. Qed.

(** C3, as stated, fails: the sender has a session that is not 'completed'
    and was touched a second ago, but its state is null; the [neq] filter
    does not keep a row with a null state, so the lookup finds nothing and
    a second session is created beside it. *)
Lemma null_state_session_is_not_reused :
  whatsapp_conversations (db More.unsettled) = [More.stateless]
  /\ Conversation.hospital_id More.stateless = "h1"
  /\ Conversation.patient_phone More.stateless = "15551234567"
  /\ Conversation.conversation_state More.stateless <> JStr "completed"
  /\ now_lookup Sample.env - 7200000 <= Conversation.last_message_at More.stateless
  /\ exists n,
       resolveSession Sample.env "h1" "15551234567" More.unsettled
       = (mkState (mkDatabase [Sample.hospital] [More.stateless; n])
            [ev_select t_whatsapp_conversations;
             ev_insert (newConversationColumns "h1" "15551234567")],
          ok n)
       /\ Conversation.id n = "s-new"
       /\ Conversation.id n <> Conversation.id More.stateless.
Proof.
  repeat split; try discriminate; try (cbn; lia).
  exists Sample.fresh. split; [reflexivity | ]. split; [reflexivity | discriminate].
Qed.

(** C3, amended: the lookup of the session of a (tenant, sender) pair gives
    the most recently created session of the pair whose state is set (not
    null) and is not 'completed' and whose [last_message_at] is no older
    than two hours, when there is one, and leaves the store as it is.  When
    there is none, also when an older session that is not completed lies
    outside the window, it asks the store for a new session: either the
    store refuses the insert and the request fails with its error, the
    table unchanged, or a session in state 'greeting' with an empty
    transcript is added, whose id differs from every id in the table.  The
    store refuses exactly when it reports an error or the id is taken. *)
Theorem resolveSession_reuses_or_creates
    (env : Env) (hospitalId patientPhone : string) (st : State) :
  let table := whatsapp_conversations (db st) in
  let now := now_lookup env in
  let run := resolveSession env hospitalId patientPhone st in
  ((exists c, In c table /\ live hospitalId patientPhone now c) ->
   exists e, snd run = ok e
     /\ In e table
     /\ live hospitalId patientPhone now e
     /\ (forall c', In c' table -> live hospitalId patientPhone now c' ->
                    Conversation.created_at c' <= Conversation.created_at e)
     /\ db (fst run) = db st)
  /\ ((forall c, In c table -> ~ live hospitalId patientPhone now c) ->
      (exists e, insertError env table = Some e
                 /\ snd run = thrown e
                 /\ db (fst run) = db st)
      \/ (insertError env table = None
          /\ exists n, snd run = ok n
               /\ Conversation.id n = created_id env
               /\ (forall c, In c table -> Conversation.id c <> Conversation.id n)
               /\ Conversation.hospital_id n = hospitalId
               /\ Conversation.patient_phone n = patientPhone
               /\ Conversation.conversation_state n = JStr "greeting"
               /\ Conversation.transcript n = Some []
               /\ whatsapp_conversations (db (fst run)) = (table ++ [n])%list))
  /\ (insertError env table = None <->
      createError env = None
      /\ ~ In (created_id env) (map Conversation.id table)).
Proof.
  intros table now run. subst run. unfold resolveSession, bind, emit, rows.
  cbn [db trace fst snd]. fold table. fold now. split; [ | split].
  - intros [c [Hc Hl]].
    destruct (selectConversation_found hospitalId patientPhone now table c Hc Hl)
      as [e He].
    rewrite He. exists e. cbn.
    destruct (selectConversation_Some hospitalId patientPhone now table e He)
      as (Hin & Hlive & Hmax).
    repeat split; try assumption; apply Hlive.
  - intros Hnone.
    apply selectConversation_None in Hnone. rewrite Hnone.
    cbn [db trace fst snd].
    destruct (insertError env table) as [e | ] eqn:Herr.
    + left. exists e. repeat split.
    + right. split; [reflexivity | ]. cbn.
      eexists. split; [reflexivity | ]. cbn.
      repeat split.
      intros c Hc E. apply insertError_None in Herr. destruct Herr as [_ Hfresh].
      apply Hfresh. rewrite <- E. now apply in_map.
  - apply insertError_None.
Qed.

Lemma resolveSession_reuses_or_creates_witness :
  (exists e, snd (resolveSession Sample.env "h1" "15551234567" Sample.busy) = ok e
             /\ Conversation.id e = "s-b")
  /\ (exists n, snd (resolveSession Sample.env "h1" "15551234567" Sample.stale) = ok n
                /\ Conversation.id n = "s-new"
                /\ Conversation.id n <> "s-old").
Proof.
  split.
  - destruct (proj1 (resolveSession_reuses_or_creates Sample.env "h1"
                       "15551234567" Sample.busy)) as (e & He & _).
    + exists (Sample.session "s-b" "15551234567" (JStr "triage") 9500000 9999500).
      split; [right; left; reflexivity | ].
      unfold live; cbn. repeat split; try discriminate; lia.
    + exists e. split; [exact He | ].
      vm_compute in He. inversion He. reflexivity.
  - destruct (proj1 (proj2 (resolveSession_reuses_or_creates Sample.env "h1"
                              "15551234567" Sample.stale)))
      as [(e & He & _) | (_ & n & Hn & Hid & Hneq & _)].
    + intros c [<- | []]. unfold live; cbn. intros (_ & _ & _ & _ & H). lia.
    + discriminate He.
    + exists n. repeat split; try assumption.
      apply not_eq_sym. apply (Hneq (Sample.session "s-old" "15551234567"
                                  (JStr "collecting") 100 (10000000 - 10800000))).
      now left.
Defined.

(** *** Two messages of one sender *)

Ltac run_handler :=
  unfold converse, conclude, update, sendWhatsAppMessageViaTwilio,
    bind, ret, emit, await, rows, setRows, throw in *;
  cbn [db trace fst snd hospitals whatsapp_conversations] in *.

Lemma resolveSession_hit (env : Env) (hospitalId patientPhone : string)
    (st : State) (e : Conversation.t) :
  selectConversation (whatsapp_conversations (db st)) hospitalId patientPhone
    (now_lookup env - window) = Some e ->
  resolveSession env hospitalId patientPhone st
  = (mkState (db st) (trace st ++ [ev_select t_whatsapp_conversations]), ok e).
Proof.
  intro H. unfold resolveSession, bind, emit, rows, ret.
  cbn [db trace fst snd]. now rewrite H.
Qed.

Lemma resolveSession_miss (env : Env) (hospitalId patientPhone : string)
    (st : State) :
  selectConversation (whatsapp_conversations (db st)) hospitalId patientPhone
    (now_lookup env - window) = None ->
  insertError env (whatsapp_conversations (db st)) = None ->
  let columns := newConversationColumns hospitalId patientPhone in
  let n := Conversation.apply columns (blankRow env) in
  resolveSession env hospitalId patientPhone st
  = (mkState (mkDatabase (hospitals (db st))
                (whatsapp_conversations (db st) ++ [n]))
       (trace st ++ [ev_select t_whatsapp_conversations] ++ [ev_insert columns]),
     ok n).
Proof.
  intros H Herr. unfold resolveSession, bind, emit, rows, ret, setRows.
  cbn [db trace fst snd hospitals]. rewrite H.
  cbn [db trace fst snd hospitals]. rewrite Herr.
  cbn [db trace fst snd hospitals whatsapp_conversations].
  now rewrite <- app_assoc.
Qed.

Lemma resolveSession_fail (env : Env) (hospitalId patientPhone : string)
    (st : State) (e : string) :
  selectConversation (whatsapp_conversations (db st)) hospitalId patientPhone
    (now_lookup env - window) = None ->
  insertError env (whatsapp_conversations (db st)) = Some e ->
  resolveSession env hospitalId patientPhone st
  = (mkState (db st)
       (trace st ++ [ev_select t_whatsapp_conversations]
          ++ [ev_insert (newConversationColumns hospitalId patientPhone)]),
     thrown e).
Proof.
  intros H Herr. unfold resolveSession, bind, emit, rows, throw.
  cbn [db trace fst snd hospitals]. rewrite H.
  cbn [db trace fst snd hospitals]. rewrite Herr.
  now rewrite <- app_assoc.
Qed.

Lemma updateWhereId_other (i : string) (p : Conversation.Patch)
    (l : list Conversation.t) :
  ~ In i (map Conversation.id l) -> updateWhereId i p l = l.
Proof.
  unfold updateWhereId. induction l as [ | c l IH ]; simpl; intro H; [reflexivity | ].
  destruct (Conversation.id c =? i)%string eqn:E.
  - apply String.eqb_eq in E. elim H. now left.
  - f_equal. apply IH. intro Hin. apply H. now right.
Qed.

Lemma updateWhereId_last (i : string) (p : Conversation.Patch)
    (l : list Conversation.t) (n : Conversation.t) :
  ~ In i (map Conversation.id l) -> Conversation.id n = i ->
  updateWhereId i p (l ++ [n]) = (l ++ [Conversation.apply p n])%list.
Proof.
  intros H Hn. unfold updateWhereId. rewrite map_app.
  fold (updateWhereId i p l). rewrite (updateWhereId_other i p l H).
  simpl. rewrite Hn, String.eqb_refl. reflexivity.
Qed.

Lemma live_later (hospitalId patientPhone : string) (now now' : Z)
    (c : Conversation.t) :
  now <= now' -> live hospitalId patientPhone now' c ->
  live hospitalId patientPhone now c.
Proof. unfold live. intros Hle (H1 & H2 & H3 & H4 & H5). repeat split; auto. lia. Qed.

Lemma truthy_not_null (v : Json) : truthy v = true -> v <> JNull.
Proof. intros H E. subst. discriminate. Qed.

(** The table after [converse], once the session is known: the inbound
    update alone when the request ends in an error before the merge, the
    inbound update and then the merged one otherwise. *)
Lemma converse_rows (env : Env) (msg : Message.t)
    (hospitalId hospitalName patientPhone hospitalWhatsApp : string)
    (st st1 : State) (conversation : Conversation.t) :
  resolveSession env hospitalId patientPhone st = (st1, ok conversation) ->
  let updated :=
    updatedTranscript conversation (Message.body msg) (Message.messageSid msg)
      (now_inbound env) in
  let touched :=
    updateWhereId (Conversation.id conversation)
      (inboundColumns updated (now_touch env))
      (whatsapp_conversations (db st1)) in
  let run :=
    converse env msg hospitalId hospitalName patientPhone hospitalWhatsApp st in
  let final := whatsapp_conversations (db (fst run)) in
  (final = touched /\ exists e, snd run = thrown e)
  \/ exists aiResult,
       aiAnswer env = ok aiResult
       /\ final = updateWhereId (Conversation.id conversation)
                    (mergedColumns (finalTranscript updated aiResult (now_reply env))
                       (merge conversation aiResult))
                    touched.
Proof.
  intros H updated touched run final. subst final run. unfold converse, bind.
  rewrite H. run_handler. fold updated. fold touched.
  destruct (aiAnswer env) as [aiResult | e];
    [ | left; split; [reflexivity | now exists e] ].
  destruct (Message.isBaileysBot msg);
    [ | destruct (unset (TWILIO_ACCOUNT_SID env) || unset (TWILIO_AUTH_TOKEN env));
        [ | cbn [db trace fst snd hospitals whatsapp_conversations];
            destruct (twilioAnswer env) as [ sent | e ];
            [ | left; split; [reflexivity | now exists e] ] ] ];
    cbn [db trace fst snd hospitals whatsapp_conversations];
    (destruct (shouldCreateAppointment conversation aiResult
                 (merge conversation aiResult));
     [ cbn [db trace fst snd hospitals whatsapp_conversations];
       destruct (appointmentAnswer env) | ]);
    cbn [db trace fst snd hospitals whatsapp_conversations];
    right; exists aiResult; split; reflexivity.
Qed.

Lemma resolveSession_only_live (env : Env) (hospitalId patientPhone : string)
    (st : State) (others : list Conversation.t) (n : Conversation.t) :
  whatsapp_conversations (db st) = (others ++ [n])%list ->
  (forall c, In c others -> ~ live hospitalId patientPhone (now_lookup env) c) ->
  live hospitalId patientPhone (now_lookup env) n ->
  resolveSession env hospitalId patientPhone st
  = (mkState (db st) (trace st ++ [ev_select t_whatsapp_conversations]), ok n).
Proof.
  intros Hrows Hothers Hn.
  destruct (selectConversation (whatsapp_conversations (db st)) hospitalId
              patientPhone (now_lookup env - window)) as [e | ] eqn:E.
  - rewrite (resolveSession_hit env hospitalId patientPhone st e E).
    apply selectConversation_Some in E. destruct E as (Hin & Hlive & _).
    rewrite Hrows in Hin. apply in_app_or in Hin.
    destruct Hin as [Hin | [<- | []]]; [ | reflexivity].
    elim (Hothers e Hin Hlive).
  - exfalso. apply (proj1 (selectConversation_None _ _ _ _) E n); [ | exact Hn].
    rewrite Hrows. apply in_or_app. right. now left.
Qed.

(** Within the window, the second message of a sender is given the session
    the first one created, when the first answer of the AI function named
    no state or a state, as a string, other than 'completed'. *)
Lemma second_message_reuses_session
    (env1 env2 : Env) (msg : Message.t)
    (hospitalId hospitalName patientPhone hospitalWhatsApp : string)
    (st : State) :
  (forall c, In c (whatsapp_conversations (db st)) ->
             ~ live hospitalId patientPhone (now_lookup env1) c) ->
  insertError env1 (whatsapp_conversations (db st)) = None ->
  (forall aiResult, aiAnswer env1 = ok aiResult ->
     AiResult.newState aiResult = None
     \/ exists s, AiResult.newState aiResult = Some (JStr s)
                  /\ s <> "completed") ->
  now_lookup env1 <= now_lookup env2 ->
  now_lookup env2 - 7200000 <= now_touch env1 ->
  let st1 :=
    fst (converse env1 msg hospitalId hospitalName patientPhone hospitalWhatsApp st) in
  exists e,
    snd (resolveSession env2 hospitalId patientPhone st1) = ok e
    /\ Conversation.id e = created_id env1
    /\ db (fst (resolveSession env2 hospitalId patientPhone st1)) = db st1.
Proof.
  intros Hnone Herr Hstate Hmono Hwin st1.
  pose proof (proj2 (proj1 (insertError_None _ _) Herr)) as Hfresh.
  assert (Hsel : selectConversation (whatsapp_conversations (db st)) hospitalId
                   patientPhone (now_lookup env1 - window) = None)
    by now apply selectConversation_None.
  pose proof (resolveSession_miss env1 hospitalId patientPhone st Hsel Herr) as Hres.
  cbv zeta in Hres.
  assert (Hold : forall c, In c (whatsapp_conversations (db st)) ->
                           ~ live hospitalId patientPhone (now_lookup env2) c).
  { intros c Hc Hl. apply (Hnone c Hc). now apply (live_later _ _ _ _ _ Hmono). }
  destruct (converse_rows env1 msg hospitalId hospitalName patientPhone
              hospitalWhatsApp st _ _ Hres) as [[Hf _] | (aiResult & Hai & Hf)];
    fold st1 in Hf; cbn [db whatsapp_conversations] in Hf.
  - rewrite updateWhereId_last in Hf; [ | exact Hfresh | reflexivity].
    eexists. rewrite (resolveSession_only_live env2 hospitalId patientPhone st1 _ _
                        Hf Hold).
    + cbn [fst snd db]. repeat split.
    + unfold live; cbn. repeat split; try discriminate. exact Hwin.
  - rewrite updateWhereId_last in Hf; [ | exact Hfresh | reflexivity].
    rewrite updateWhereId_last in Hf; [ | exact Hfresh | reflexivity].
    eexists. rewrite (resolveSession_only_live env2 hospitalId patientPhone st1 _ _
                        Hf Hold).
    + cbn [fst snd db]. repeat split.
    + unfold live; cbn. repeat split; try exact Hwin.
      * destruct (Hstate aiResult Hai) as [-> | (s & -> & _)]; unfold or_else;
          [discriminate | ].
        destruct (truthy (JStr s)); discriminate.
      * destruct (Hstate aiResult Hai) as [-> | (s & -> & Hs)]; unfold or_else;
          [discriminate | ].
        destruct (truthy (JStr s)); [congruence | discriminate].
Qed.

(** Past the window, the next message of the sender is given a new
    session, with another id, though the earlier one is not completed. *)
Lemma late_message_starts_new_session
    (env1 env2 : Env) (msg : Message.t)
    (hospitalId hospitalName patientPhone hospitalWhatsApp : string)
    (st : State) :
  (forall c, In c (whatsapp_conversations (db st)) ->
             ~ live hospitalId patientPhone (now_lookup env1) c) ->
  insertError env1 (whatsapp_conversations (db st)) = None ->
  now_lookup env1 <= now_lookup env2 ->
  now_touch env1 < now_lookup env2 - 7200000 ->
  let st1 :=
    fst (converse env1 msg hospitalId hospitalName patientPhone hospitalWhatsApp st) in
  insertError env2 (whatsapp_conversations (db st1)) = None ->
  In (created_id env1) (map Conversation.id (whatsapp_conversations (db st1)))
  /\ exists n,
       snd (resolveSession env2 hospitalId patientPhone st1) = ok n
       /\ Conversation.id n = created_id env2
       /\ Conversation.id n <> created_id env1.
Proof.
  intros Hnone Herr Hmono Hlate st1 Herr2.
  pose proof (proj2 (proj1 (insertError_None _ _) Herr)) as Hfresh.
  pose proof (proj2 (proj1 (insertError_None _ _) Herr2)) as Hfresh2.
  assert (Hsel : selectConversation (whatsapp_conversations (db st)) hospitalId
                   patientPhone (now_lookup env1 - window) = None)
    by now apply selectConversation_None.
  pose proof (resolveSession_miss env1 hospitalId patientPhone st Hsel Herr) as Hres.
  cbv zeta in Hres.
  assert (Hold : forall c, In c (whatsapp_conversations (db st)) ->
                           ~ live hospitalId patientPhone (now_lookup env2) c).
  { intros c Hc Hl. apply (Hnone c Hc). now apply (live_later _ _ _ _ _ Hmono). }
  assert (Hrows : exists n', whatsapp_conversations (db st1)
                    = (whatsapp_conversations (db st) ++ [n'])%list
                    /\ Conversation.id n' = created_id env1
                    /\ Conversation.last_message_at n' = now_touch env1).
  { destruct (converse_rows env1 msg hospitalId hospitalName patientPhone
                hospitalWhatsApp st _ _ Hres) as [[Hf _] | (aiResult & Hai & Hf)];
      fold st1 in Hf; cbn [db whatsapp_conversations] in Hf.
    - rewrite updateWhereId_last in Hf; [ | exact Hfresh | reflexivity].
      eexists. split; [exact Hf | split; reflexivity].
    - rewrite updateWhereId_last in Hf; [ | exact Hfresh | reflexivity].
      rewrite updateWhereId_last in Hf; [ | exact Hfresh | reflexivity].
      eexists. split; [exact Hf | split; reflexivity]. }
  destruct Hrows as (n' & Hrows & Hid & Hlast).
  assert (Hin1 : In (created_id env1)
                   (map Conversation.id (whatsapp_conversations (db st1)))).
  { rewrite Hrows, map_app. apply in_or_app. right. left. exact Hid. }
  split; [exact Hin1 | ].
  assert (Hsel2 : selectConversation (whatsapp_conversations (db st1)) hospitalId
                    patientPhone (now_lookup env2 - window) = None).
  { apply selectConversation_None. intros c Hc Hl. rewrite Hrows in Hc.
    apply in_app_or in Hc. destruct Hc as [Hc | [<- | []]].
    - exact (Hold c Hc Hl).
    - destruct Hl as (_ & _ & _ & _ & Hl). lia. }
  rewrite (resolveSession_miss env2 hospitalId patientPhone st1 Hsel2 Herr2).
  eexists. split; [reflexivity | ]. split; [reflexivity | ].
  cbn. intro E. apply Hfresh2. rewrite E. exact Hin1.
Qed.

(** ** Writes to a session *)

Lemma assign_frame (a : Conversation.Assign) (col : Conversation.Column)
    (s : Conversation.t) :
  Conversation.column a <> col ->
  Conversation.read col (Conversation.assign a s) = Conversation.read col s.
Proof.
  destruct s; destruct a; destruct col; simpl; intro H;
    try reflexivity; now elim H.
Qed.

Lemma apply_frame (p : Conversation.Patch) (col : Conversation.Column)
    (s : Conversation.t) :
  ~ In col (Conversation.columns p) ->
  Conversation.read col (Conversation.apply p s) = Conversation.read col s.
Proof.
  unfold Conversation.apply, Conversation.columns.
  revert s. induction p as [ | a p IH ]; intros s H; simpl; [reflexivity | ].
  rewrite IH.
  - apply assign_frame. intro E. apply H. now left.
  - intro Hin. apply H. now right.
Qed.

Lemma apply_keeps_id (p : Conversation.Patch) (s : Conversation.t) :
  ~ In Conversation.c_id (Conversation.columns p) ->
  Conversation.id (Conversation.apply p s) = Conversation.id s.
Proof.
  intro H. pose proof (apply_frame p Conversation.c_id s H) as E.
  simpl in E. congruence.
Qed.

Lemma inboundColumns_transcript (updated : list Turn) (now : Z)
    (s : Conversation.t) :
  Conversation.transcript (Conversation.apply (inboundColumns updated now) s)
  = Some updated.
Proof. destruct s. reflexivity. Qed.

Lemma mergedColumns_transcript (final : list Turn) (m : Merged)
    (s : Conversation.t) :
  Conversation.transcript (Conversation.apply (mergedColumns final m) s)
  = Some final.
Proof. destruct s. reflexivity. Qed.

Lemma In_updateWhereId (i : string) (p : Conversation.Patch)
    (l : list Conversation.t) (c' : Conversation.t) :
  In c' (updateWhereId i p l) <->
  exists c, In c l
            /\ c' = if (Conversation.id c =? i)%string
                    then Conversation.apply p c else c.
Proof.
  unfold updateWhereId. rewrite in_map_iff.
  split; intros (c & H1 & H2); exists c; split; auto.
Qed.

Lemma resolveSession_member (env : Env) (hospitalId patientPhone : string)
    (st st1 : State) (conversation : Conversation.t) :
  resolveSession env hospitalId patientPhone st = (st1, ok conversation) ->
  In conversation (whatsapp_conversations (db st1)).
Proof.
  intro H.
  destruct (selectConversation (whatsapp_conversations (db st)) hospitalId
              patientPhone (now_lookup env - window)) as [e | ] eqn:E.
  - rewrite (resolveSession_hit _ _ _ _ _ E) in H. inversion H; subst; cbn.
    now apply selectConversation_Some in E.
  - destruct (insertError env (whatsapp_conversations (db st))) as [err | ] eqn:Herr.
    + rewrite (resolveSession_fail _ _ _ _ _ E Herr) in H. discriminate.
    + rewrite (resolveSession_miss _ _ _ _ E Herr) in H. inversion H; subst; cbn.
      apply in_or_app. right. now left.
Qed.

Lemma updateWhereId_hit (i : string) (p : Conversation.Patch)
    (l : list Conversation.t) (c' : Conversation.t) :
  ~ In Conversation.c_id (Conversation.columns p) ->
  In c' (updateWhereId i p l) -> Conversation.id c' = i ->
  exists c, In c l /\ Conversation.id c = i /\ c' = Conversation.apply p c.
Proof.
  intros Hp Hin Hid. apply In_updateWhereId in Hin. destruct Hin as (c & Hc & ->).
  destruct (Conversation.id c =? i)%string eqn:E.
  - apply String.eqb_eq in E. now exists c.
  - apply String.eqb_neq in E. contradiction.
Qed.

Lemma updateWhereId_has (i : string) (p : Conversation.Patch)
    (l : list Conversation.t) (c : Conversation.t) :
  In c l -> Conversation.id c = i ->
  In (Conversation.apply p c) (updateWhereId i p l).
Proof.
  intros Hc Hid. apply In_updateWhereId. exists c. split; [assumption | ].
  now rewrite Hid, String.eqb_refl.
Qed.

Lemma inboundColumns_no_id (updated : list Turn) (now : Z) :
  ~ In Conversation.c_id (Conversation.columns (inboundColumns updated now)).
Proof. simpl. intuition discriminate. Qed.

Lemma mergedColumns_no_id (final : list Turn) (m : Merged) :
  ~ In Conversation.c_id (Conversation.columns (mergedColumns final m)).
Proof. simpl. intuition discriminate. Qed.

(** ** Transcript *)

(** C5: each of the two appends gives the transcript it started from with
    one turn more at its end, the patient's and then the assistant's, so
    the earlier turns stay as they were and the length grows by one each
    time; the session's row holds the first result after the inbound write
    and, when the request succeeds, the second, two turns longer than the
    transcript the request found. *)
Theorem transcript_append_only
    (env : Env) (msg : Message.t)
    (hospitalId hospitalName patientPhone hospitalWhatsApp : string)
    (st st1 : State) (conversation : Conversation.t) :
  resolveSession env hospitalId patientPhone st = (st1, ok conversation) ->
  let before :=
    match Conversation.transcript conversation with
    | Some turns => turns
    | None => []
    end in
  let inbound :=
    mkTurn patient (Some (Message.body msg)) (now_inbound env)
      (Some (Message.messageSid msg)) in
  let outbound aiResult := mkTurn assistant (AiResult.response aiResult)
                             (now_reply env) None in
  let updated :=
    updatedTranscript conversation (Message.body msg) (Message.messageSid msg)
      (now_inbound env) in
  let run :=
    converse env msg hospitalId hospitalName patientPhone hospitalWhatsApp st in
  let stored := whatsapp_conversations (db (fst run)) in
  updated = (before ++ [inbound])%list
  /\ List.length updated = S (List.length before)
  /\ (forall aiResult,
        finalTranscript updated aiResult (now_reply env)
        = (updated ++ [outbound aiResult])%list
        /\ finalTranscript updated aiResult (now_reply env)
           = (before ++ [inbound; outbound aiResult])%list
        /\ List.length (finalTranscript updated aiResult (now_reply env))
           = S (List.length updated))
  /\ (exists c, In c stored /\ Conversation.id c = Conversation.id conversation)
  /\ (forall c, In c stored ->
        Conversation.id c = Conversation.id conversation ->
        Conversation.transcript c = Some updated
        \/ exists aiResult,
             aiAnswer env = ok aiResult
             /\ Conversation.transcript c
                = Some (finalTranscript updated aiResult (now_reply env)))
  /\ (forall response, snd run = ok response ->
        exists aiResult,
          aiAnswer env = ok aiResult
          /\ forall c, In c stored ->
               Conversation.id c = Conversation.id conversation ->
               Conversation.transcript c
               = Some (before ++ [inbound; outbound aiResult])%list).
Proof.
  intros H before inbound outbound updated run stored.
  assert (Hup : updated = (before ++ [inbound])%list) by reflexivity.
  assert (Hfin : forall aiResult,
             finalTranscript updated aiResult (now_reply env)
             = (before ++ [inbound; outbound aiResult])%list).
  { intro aiResult. unfold finalTranscript. rewrite Hup, <- app_assoc. reflexivity. }
  pose proof (resolveSession_member _ _ _ _ _ _ H) as Hmem.
  pose proof (converse_rows env msg hospitalId hospitalName patientPhone
                hospitalWhatsApp st st1 conversation H) as Hrows.
  cbv zeta in Hrows. fold updated in Hrows. fold run in Hrows. fold stored in Hrows.
  split; [exact Hup | ].
  split; [rewrite Hup, length_app; simpl; lia | ].
  split.
  { intro aiResult. split; [reflexivity | ]. split; [apply Hfin | ].
    unfold finalTranscript. rewrite length_app. simpl. lia. }
  split.
  { destruct Hrows as [[-> _] | (aiResult & _ & ->)].
    - eexists. split; [apply updateWhereId_has; [exact Hmem | reflexivity] | ].
      apply apply_keeps_id, inboundColumns_no_id.
    - eexists. split.
      + apply updateWhereId_has; [ | ].
        * apply updateWhereId_has; [exact Hmem | reflexivity].
        * apply apply_keeps_id, inboundColumns_no_id.
      + rewrite !apply_keeps_id;
          auto using inboundColumns_no_id, mergedColumns_no_id. }
  split.
  { intros c Hc Hid. destruct Hrows as [[E _] | (aiResult & Hai & E)];
      rewrite E in Hc.
    - left. apply updateWhereId_hit in Hc;
        [ | apply inboundColumns_no_id | exact Hid].
      destruct Hc as (c0 & _ & _ & ->). apply inboundColumns_transcript.
    - right. exists aiResult. split; [exact Hai | ].
      apply updateWhereId_hit in Hc;
        [ | apply mergedColumns_no_id | exact Hid].
      destruct Hc as (c0 & _ & _ & ->). apply mergedColumns_transcript. }
  intros response Hok. destruct Hrows as [[_ [e He]] | (aiResult & Hai & E)].
  - rewrite He in Hok. discriminate.
  - exists aiResult. split; [exact Hai | ]. intros c Hc Hid.
    rewrite E in Hc. apply updateWhereId_hit in Hc;
      [ | apply mergedColumns_no_id | exact Hid].
    destruct Hc as (c0 & _ & _ & ->). rewrite mergedColumns_transcript.
    now rewrite Hfin.
Qed.

Lemma transcript_append_only_witness :
  updatedTranscript Sample.newest (JStr "I have a fever") (JStr "SM1") 10000001
  = [mkTurn patient (Some (JStr "I have a fever")) 10000001 (Some (JStr "SM1"))]
  /\ exists c,
       In c (whatsapp_conversations (db (fst
               (converse Sample.env Sample.hello "h1" "General" "15551234567"
                  "15559876543" Sample.busy))))
       /\ Conversation.id c = "s-b".
Proof.
  destruct (transcript_append_only Sample.env Sample.hello "h1" "General"
              "15551234567" "15559876543" Sample.busy
              (mkState (db Sample.busy) [ev_select t_whatsapp_conversations])
              Sample.newest eq_refl) as (H1 & _ & _ & H4 & _).
  split; [exact H1 | exact H4].
Defined.

(** ** Tenant resolution *)



Lemma matchesNumber_false (reading : string -> Hospital.t -> bool)
    (hospitalWhatsApp : string) (h : Hospital.t) :
  plain hospitalWhatsApp = true ->
  (Hospital.whatsapp_enabled h = true ->
   Hospital.whatsapp_number h <> Some hospitalWhatsApp
   /\ Hospital.whatsapp_number h <> Some ("+" ++ hospitalWhatsApp)) ->
  matchesNumber reading hospitalWhatsApp h = false.
Proof.
  intros Hplain H. unfold matchesNumber. rewrite Hplain.
  destruct (Hospital.whatsapp_enabled h); [ | apply andb_false_r].
  destruct (H eq_refl) as [H1 H2]. rewrite andb_true_r. unfold text_eq.
  destruct (Hospital.whatsapp_number h) as [n | ]; [ | reflexivity].
  apply orb_false_iff. split; apply String.eqb_neq; congruence.
Qed.

(** When exactly one enabled tenant holds the number, bare or with the
    sign, that tenant is the one resolved. *)
Lemma resolveHospital_single_match (env : Env) (hospitalWhatsApp : string)
    (st : State) (h : Hospital.t) :
  filter (matchesNumber (orAnswer env) hospitalWhatsApp) (hospitals (db st)) = [h] ->
  resolveHospital env hospitalWhatsApp st
  = (mkState (db st) (trace st ++ [ev_select t_hospitals]),
     ok (Some (Hospital.id h), Hospital.name h)).
Proof.
  intro H. unfold resolveHospital, bind, emit, hospitalRows, ret, selectHospital.
  cbn [db trace fst snd]. now rewrite H.
Qed.

(** C6: the fallback lookup does not ask for an enabled tenant, though the
    comment above it says so.  With no tenant on the number written to, the
    handler resolves to the first tenant of type 'hospital', which has
    WhatsApp switched off, and not to the enabled one after it. *)
Theorem fallback_ignores_enabled :
  snd (resolveHospital Sample.env "15559876543" Sample.misrouted)
  = ok (Some "h-closed", "Closed Clinic")
  /\ Hospital.whatsapp_enabled Sample.closed = false
  /\ filter Hospital.whatsapp_enabled
       (filter (fun h => text_eq (Hospital.organization_type h) "hospital")
          (hospitals (db Sample.misrouted)))
     = [Sample.open].
Proof. repeat split. Qed.

(** Two enabled tenants on one number, one bare and one with the sign: the
    lookup takes neither, and there being no tenant of the default type the
    request is not routed at all. *)
Example two_matches_resolve_to_none :
  snd (resolveHospital Sample.env "15559876543"
         (mkState (mkDatabase [Sample.bare; Sample.signed] []) []))
  = ok (None, "the hospital").
Proof. reflexivity. Qed.

Lemma readMessage_state (env : Env) (req : Request) (st : State) :
  fst (readMessage env req st) = st.
Proof.
  unfold readMessage, bind, await, ret.
  destruct (isJson req);
    [destruct (json req) | destruct (formData req)]; reflexivity.
Qed.

Lemma readMessage_channel (env : Env) (req : Request) (st : State)
    (msg : Message.t) :
  snd (readMessage env req st) = ok msg ->
  Message.isBaileysBot msg = isJson req.
Proof.
  unfold readMessage, bind, await, ret.
  destruct (isJson req);
    [destruct (json req) | destruct (formData req)]; cbn; intro H;
    inversion H; reflexivity.
Qed.

Lemma logMessage_run (msg : Message.t) (st : State) :
  logMessage msg st
  = (st, if printable (Message.from msg) && printable (Message.to msg)
            && printable (Message.body msg)
         then ok tt
         else thrown "Cannot convert object to primitive value").
Proof.
  unfold logMessage, ret, throw.
  now destruct (printable (Message.from msg) && printable (Message.to msg)
                && printable (Message.body msg)).
Qed.



(** ** The handler as a whole *)

Ltac split_outcomes :=
  repeat (cbn [db trace fst snd hospitals whatsapp_conversations];
    match goal with
    | |- context [match aiAnswer ?e with _ => _ end] =>
        destruct (aiAnswer e) eqn:?
    | |- context [if Message.isBaileysBot ?m then _ else _] =>
        destruct (Message.isBaileysBot m) eqn:?
    | |- context [if unset ?a || unset ?b then _ else _] =>
        destruct (unset a || unset b) eqn:?
    | |- context [match twilioAnswer ?e with _ => _ end] =>
        destruct (twilioAnswer e) eqn:?
    | |- context [if shouldCreateAppointment ?c ?a ?m then _ else _] =>
        destruct (shouldCreateAppointment c a m) eqn:?
    | |- context [match appointmentAnswer ?e with _ => _ end] =>
        destruct (appointmentAnswer e) eqn:?
    end);
  cbn [db trace fst snd hospitals whatsapp_conversations].

Lemma readMessage_env (env env' : Env) (req : Request) :
  now_received env' = now_received env ->
  readMessage env' req = readMessage env req.
Proof. intro H. unfold readMessage. now rewrite H. Qed.

(** Before the session is looked up the handler only reads the tenants:
    either the request ends there, with the store as it was, or it goes on
    with [converse]; and up to there it reads nothing of the world but the
    clock of line 51 and the store's reading of the filter of line 85. *)
Lemma handle_cases_both (env env' : Env) (req : Request) (st : State) :
  now_received env' = now_received env ->
  orAnswer env' = orAnswer env ->
  (exists pre o,
     handle env req st = (mkState (db st) (trace st ++ pre), o)
     /\ handle env' req st = (mkState (db st) (trace st ++ pre), o)
     /\ Forall (eq (ev_select t_hospitals)) pre)
  \/ (exists pre msg hospitalId hospitalName patientPhone hospitalWhatsApp,
        Forall (eq (ev_select t_hospitals)) pre
        /\ Message.isBaileysBot msg = isJson req
        /\ handle env req st
           = converse env msg hospitalId hospitalName patientPhone
               hospitalWhatsApp (mkState (db st) (trace st ++ pre))
        /\ handle env' req st
           = converse env' msg hospitalId hospitalName patientPhone
               hospitalWhatsApp (mkState (db st) (trace st ++ pre))).
Proof.
  intros Hclock Hreading.
  assert (Hst : st = mkState (db st) (trace st ++ []))
    by (destruct st; cbn; now rewrite app_nil_r).
  unfold handle, bind. rewrite (readMessage_env env env' req Hclock).
  pose proof (readMessage_state env req st) as Hread.
  pose proof (readMessage_channel env req st) as Hch.
  destruct (readMessage env req st) as [st0 [msg | e]]; cbn in Hread; subst st0;
    [ specialize (Hch msg eq_refl)
    | left; exists [], (thrown e); repeat split;
      [now rewrite <- Hst | now rewrite <- Hst | constructor] ].
  rewrite logMessage_run.
  destruct (printable (Message.from msg) && printable (Message.to msg)
            && printable (Message.body msg));
    [ | left; eexists [], _; repeat split;
        [now rewrite <- Hst | now rewrite <- Hst | constructor] ].
  destruct (Message.from msg) as [ | b | n | from | l | f ]; cbn [stripped throw ret];
    try (left; eexists [], _; repeat split;
         [now rewrite <- Hst | now rewrite <- Hst | constructor]).
  destruct (Message.to msg) as [ | b | n | to | l | f ]; cbn [stripped throw ret];
    try (left; eexists [], _; repeat split;
         [now rewrite <- Hst | now rewrite <- Hst | constructor]).
  unfold resolveHospital, bind, emit, hospitalRows, ret.
  cbn [db trace fst snd]. rewrite Hreading.
  destruct (selectHospital (orAnswer env) (hospitals (db st)) (normalize to))
    as [h | ].
  - destruct (noHospital (Some (Hospital.id h))).
    + left. eexists [_], _. repeat split; repeat constructor.
    + right. eexists [_], msg, _, _, _, _.
      repeat split; [repeat constructor | exact Hch].
  - cbn [db trace fst snd].
    destruct (selectFallbackHospital (hospitals (db st))) as [h | ].
    + destruct (noHospital (Some (Hospital.id h))).
      * left. eexists [_; _], _. rewrite <- app_assoc.
        repeat split; repeat constructor.
      * right. eexists [_; _], msg, _, _, _, _. rewrite <- app_assoc.
        repeat split; [repeat constructor | exact Hch].
    + left. eexists [_; _], _. rewrite <- app_assoc.
      repeat split; repeat constructor.
Qed.

Lemma handle_cases (env : Env) (req : Request) (st : State) :
  (exists pre o,
     handle env req st = (mkState (db st) (trace st ++ pre), o)
     /\ Forall (eq (ev_select t_hospitals)) pre)
  \/ (exists pre msg hospitalId hospitalName patientPhone hospitalWhatsApp,
        Forall (eq (ev_select t_hospitals)) pre
        /\ handle env req st
           = converse env msg hospitalId hospitalName patientPhone
               hospitalWhatsApp (mkState (db st) (trace st ++ pre))).
Proof.
  destruct (handle_cases_both env env req st eq_refl eq_refl)
    as [(pre & o & H & _ & Hpre)
       | (pre & msg & hid & hname & phone & hw & Hpre & _ & H & _)].
  - left. now exists pre, o.
  - right. now exists pre, msg, hid, hname, phone, hw.
Qed.

(** ** The appointment flag *)

Lemma flags_updateWhereId (i : string) (p : Conversation.Patch)
    (l : list Conversation.t) :
  ~ In Conversation.c_id (Conversation.columns p) ->
  ~ In Conversation.c_appointment_created (Conversation.columns p) ->
  flags (updateWhereId i p l) = flags l.
Proof.
  intros Hid Hflag. unfold flags, updateWhereId. rewrite map_map.
  apply map_ext. intro c.
  destruct (Conversation.id c =? i)%string; [ | reflexivity].
  pose proof (apply_frame p _ c Hid) as E1.
  pose proof (apply_frame p _ c Hflag) as E2.
  simpl in E1, E2. congruence.
Qed.

Lemma flags_app (l l' : list Conversation.t) :
  flags (l ++ l') = (flags l ++ flags l')%list.
Proof. apply map_app. Qed.

Ltac no_flag_write :=
  repeat constructor; simpl; intuition discriminate.

Ltac last_call :=
  simpl; intros ? Hin;
  repeat (destruct Hin as [Hin | Hin]; try discriminate Hin);
  try contradiction;
  injection Hin as <-;
  match goal with
  | |- exists pre, ?l = _ => exists (removelast l); reflexivity
  end.

Lemma converse_flags (env : Env) (msg : Message.t)
    (hospitalId hospitalName patientPhone hospitalWhatsApp : string)
    (st : State) :
  let st' :=
    fst (converse env msg hospitalId hospitalName patientPhone hospitalWhatsApp st) in
  exists created new,
    flags (whatsapp_conversations (db st'))
    = (flags (whatsapp_conversations (db st)) ++ flags created)%list
    /\ (created = []
        \/ created = [Conversation.apply
                        (newConversationColumns hospitalId patientPhone)
                        (blankRow env)])
    /\ hospitals (db st') = hospitals (db st)
    /\ trace st' = (trace st ++ new)%list
    /\ Forall (fun e => ~ writes Conversation.c_appointment_created e) new
    /\ (forall r, In (ev_appointment r) new ->
                  exists pre, new = (pre ++ [ev_appointment r])%list).
Proof.
  intro st'. subst st'. unfold converse, bind.
  destruct (selectConversation (whatsapp_conversations (db st)) hospitalId
              patientPhone (now_lookup env - window)) as [e | ] eqn:E;
    [ rewrite (resolveSession_hit _ _ _ _ _ E); exists []
    | destruct (insertError env (whatsapp_conversations (db st))) as [err | ] eqn:Herr;
      [ rewrite (resolveSession_fail _ _ _ _ _ E Herr); exists []
      | rewrite (resolveSession_miss _ _ _ _ E Herr); cbv zeta;
        exists [Conversation.apply (newConversationColumns hospitalId patientPhone)
                  (blankRow env)] ] ];
    run_handler; split_outcomes;
    rewrite <- ?app_assoc;
    rewrite ?flags_updateWhereId by (simpl; intuition discriminate);
    rewrite ?flags_app, ?app_nil_r;
    (eexists; split; [reflexivity | ];
     split; [auto | ]; split; [reflexivity | ]; split; [reflexivity | ];
     split; [no_flag_write | last_call]).
Qed.

Lemma serve_state (env : Env) (req : Request) (st : State) :
  fst (serve env req st)
  = if (method req =? "OPTIONS")%string then st else fst (handle env req st).
Proof.
  unfold serve. destruct (method req =? "OPTIONS")%string; [reflexivity | ].
  destruct (handle env req st) as [st' [r | e]]; reflexivity.
Qed.

Lemma Forall_hospital_select (col : Conversation.Column) (pre : list Event) :
  Forall (eq (ev_select t_hospitals)) pre ->
  Forall (fun e => ~ writes col e) pre.
Proof.
  intro H. eapply Forall_impl; [ | exact H]. intros e <-. simpl. tauto.
Qed.

Lemma flags_nth (table table' : list Conversation.t)
    (created : list Conversation.t) (k : nat) (c : Conversation.t) :
  flags table' = (flags table ++ flags created)%list ->
  nth_error table k = Some c ->
  exists c', nth_error table' k = Some c'
             /\ Conversation.id c' = Conversation.id c
             /\ Conversation.appointment_created c'
                = Conversation.appointment_created c.
Proof.
  intros Hflags Hk.
  assert (H : nth_error (flags table') k
              = Some (Conversation.id c, Conversation.appointment_created c)).
  { rewrite Hflags, nth_error_app1.
    - unfold flags. rewrite nth_error_map, Hk. reflexivity.
    - unfold flags. rewrite length_map. apply nth_error_Some. congruence. }
  unfold flags in H. rewrite nth_error_map in H.
  destruct (nth_error table' k) as [c' | ]; [ | discriminate].
  exists c'. cbn in H. inversion H. auto.
Qed.

(** C4: whatever the request, every session that was in the store is still
    there, in its place, with the [appointment_created] it had, so the flag
    never goes from true to false; a session the request creates gets the
    flag from the store's default.  No insert and no update the handler
    makes names the column, and when the trigger fires the request to the
    appointment function is the last call of the handler: no write follows
    it. *)
Theorem appointment_created_never_reset
    (env : Env) (req : Request) (st : State) :
  let st' := fst (serve env req st) in
  exists created new,
    flags (whatsapp_conversations (db st'))
    = (flags (whatsapp_conversations (db st)) ++ flags created)%list
    /\ (created = []
        \/ exists hospitalId patientPhone,
             created = [Conversation.apply
                          (newConversationColumns hospitalId patientPhone)
                          (blankRow env)])
    /\ (forall k c, nth_error (whatsapp_conversations (db st)) k = Some c ->
          exists c', nth_error (whatsapp_conversations (db st')) k = Some c'
                     /\ Conversation.id c' = Conversation.id c
                     /\ Conversation.appointment_created c'
                        = Conversation.appointment_created c)
    /\ trace st' = (trace st ++ new)%list
    /\ Forall (fun e => ~ writes Conversation.c_appointment_created e) new
    /\ (forall r, In (ev_appointment r) new ->
                  exists pre, new = (pre ++ [ev_appointment r])%list).
Proof.
  intro st'. subst st'. rewrite serve_state.
  destruct (method req =? "OPTIONS")%string.
  { exists [], []. rewrite !app_nil_r. repeat split; auto.
    - intros k c Hk. now exists c.
    - intros r []. }
  destruct (handle_cases env req st)
    as [(pre & o & -> & Hpre)
       | (pre & msg & hid & hname & phone & hw & Hpre & ->)].
  - exists [], pre. cbn [fst db trace]. rewrite app_nil_r.
    repeat split; auto.
    + intros k c Hk. now exists c.
    + now apply Forall_hospital_select.
    + intros r Hin. rewrite Forall_forall in Hpre.
      specialize (Hpre _ Hin). discriminate.
  - destruct (converse_flags env msg hid hname phone hw
                (mkState (db st) (trace st ++ pre)))
      as (created & new & Hflags & Hcreated & _ & Htrace & Hnew & Hlast).
    cbn [db trace] in Hflags, Htrace.
    exists created, (pre ++ new)%list.
    split; [exact Hflags | ].
    split; [destruct Hcreated as [-> | ->]; [now left | right; eauto] | ].
    split; [intros k c Hk; eapply flags_nth; eauto | ].
    split; [now rewrite Htrace, app_assoc | ].
    split; [apply Forall_app; split;
            [now apply Forall_hospital_select | exact Hnew] | ].
    intros r Hin. apply in_app_or in Hin. destruct Hin as [Hin | Hin].
    + rewrite Forall_forall in Hpre. specialize (Hpre _ Hin). discriminate.
    + destruct (Hlast r Hin) as [pre' ->].
      exists (pre ++ pre')%list. now rewrite app_assoc.
Qed.

(** ** The preferred slot *)

Lemma converse_preferred (env : Env) (msg : Message.t)
    (hospitalId hospitalName patientPhone hospitalWhatsApp : string)
    (st : State) (aiResult : AiResult.t) :
  aiAnswer env = ok aiResult ->
  let env' := withAiAnswer env (ok (forgetPreferred aiResult)) in
  let r := converse env msg hospitalId hospitalName patientPhone hospitalWhatsApp st in
  let r' := converse env' msg hospitalId hospitalName patientPhone hospitalWhatsApp st in
  db (fst r) = db (fst r')
  /\ snd r = snd r'
  /\ map erasePreferred (trace (fst r)) = map erasePreferred (trace (fst r')).
Proof.
  intros Hai env' r r'. subst r r' env'. unfold converse, bind.
  change (resolveSession (withAiAnswer env (ok (forgetPreferred aiResult)))
            hospitalId patientPhone st)
    with (resolveSession env hospitalId patientPhone st).
  destruct (resolveSession env hospitalId patientPhone st)
    as [st1 [conversation | e]]; [ | repeat split].
  run_handler.
  cbn [withAiAnswer aiAnswer TWILIO_ACCOUNT_SID TWILIO_AUTH_TOKEN twilioAnswer
       appointmentAnswer now_inbound now_touch now_reply].
  rewrite Hai.
  change (shouldCreateAppointment conversation (forgetPreferred aiResult)
            (merge conversation (forgetPreferred aiResult)))
    with (shouldCreateAppointment conversation aiResult
            (merge conversation aiResult)).
  split_outcomes; repeat split; rewrite ?map_app; reflexivity.
Qed.

Lemma serve_of_handle (env : Env) (req : Request) (st : State) :
  (method req =? "OPTIONS")%string = false ->
  serve env req st
  = (fst (handle env req st),
     match snd (handle env req st) with
     | ok response => response
     | thrown message => errorReply req message
     end).
Proof.
  intro H. unfold serve. rewrite H.
  destruct (handle env req st) as [st' [r | e]]; reflexivity.
Qed.

Ltac known_writes :=
  repeat (apply Forall_cons || apply Forall_nil); simpl; auto.

Lemma converse_writes (env : Env) (msg : Message.t)
    (hospitalId hospitalName patientPhone hospitalWhatsApp : string)
    (st : State) :
  exists new,
    trace (fst (converse env msg hospitalId hospitalName patientPhone
                  hospitalWhatsApp st))
    = (trace st ++ new)%list
    /\ Forall knownWrite new.
Proof.
  unfold converse, bind.
  destruct (selectConversation (whatsapp_conversations (db st)) hospitalId
              patientPhone (now_lookup env - window)) as [e | ] eqn:E;
    [ rewrite (resolveSession_hit _ _ _ _ _ E)
    | destruct (insertError env (whatsapp_conversations (db st))) as [err | ] eqn:Herr;
      [ rewrite (resolveSession_fail _ _ _ _ _ E Herr)
      | rewrite (resolveSession_miss _ _ _ _ E Herr); cbv zeta ] ];
    run_handler; split_outcomes;
    rewrite <- ?app_assoc;
    (eexists; split; [reflexivity | known_writes]).
Qed.

Lemma Forall_hospital_select_known (pre : list Event) :
  Forall (eq (ev_select t_hospitals)) pre -> Forall knownWrite pre.
Proof.
  intro H. eapply Forall_impl; [ | exact H]. intros e <-. exact I.
Qed.

(** C8: the merged update names the seven columns transcript,
    conversation_state, collected_symptoms, triage_level, urgency_score,
    first_aid_given and patient_name, and a row it is applied to keeps
    every other column.  The preferred date and time go into the request
    to the appointment function and nowhere else: a request handled with
    the AI answer stripped of both leaves the same store and gives the same
    response, and makes the same calls but for those two fields of the
    appointment request; and every write the handler makes is the insert of
    a new session or one of its two updates. *)
Theorem preferred_slot_is_transient
    (env : Env) (req : Request) (st : State) (aiResult : AiResult.t) :
  aiAnswer env = ok aiResult ->
  let env' := withAiAnswer env (ok (forgetPreferred aiResult)) in
  (forall conversation final,
     let p := mergedColumns final (merge conversation aiResult) in
     Conversation.columns p = mergedColumnNames
     /\ p = mergedColumns final (merge conversation (forgetPreferred aiResult))
     /\ (forall row col, ~ In col mergedColumnNames ->
           Conversation.read col (Conversation.apply p row)
           = Conversation.read col row)
     /\ (forall hospitalId patientPhone,
           let request :=
             appointmentRequest conversation hospitalId patientPhone
               (merge conversation aiResult) final in
           AppointmentRequest.preferredDate request
           = or_else (AiResult.preferredDate aiResult) JNull
           /\ AppointmentRequest.preferredTime request
              = or_else (AiResult.preferredTime aiResult) JNull))
  /\ db (fst (serve env req st)) = db (fst (serve env' req st))
  /\ snd (serve env req st) = snd (serve env' req st)
  /\ map erasePreferred (trace (fst (serve env req st)))
     = map erasePreferred (trace (fst (serve env' req st)))
  /\ exists new,
       trace (fst (serve env req st)) = (trace st ++ new)%list
       /\ Forall knownWrite new.
Proof.
  intros Hai env'. split.
  { intros conversation final p. subst p. repeat split.
    intros row col Hcol. apply apply_frame. exact Hcol. }
  destruct (method req =? "OPTIONS")%string eqn:Hm.
  { unfold serve. rewrite Hm. cbn [fst snd]. repeat split.
    exists []. now rewrite app_nil_r. }
  rewrite !(serve_of_handle _ req st Hm). cbn [fst snd].
  destruct (handle_cases_both env env' req st eq_refl eq_refl)
    as [(pre & o & -> & -> & Hpre)
       | (pre & msg & hid & hname & phone & hw & Hpre & _ & -> & ->)].
  - cbn [fst snd db trace]. repeat split.
    exists pre. split; [reflexivity | now apply Forall_hospital_select_known].
  - destruct (converse_preferred env msg hid hname phone hw
                (mkState (db st) (trace st ++ pre)) aiResult Hai)
      as (Hdb & Hout & Htrace).
    fold env' in Hdb, Hout, Htrace.
    split; [exact Hdb | ]. split; [now rewrite Hout | ].
    split; [exact Htrace | ].
    destruct (converse_writes env msg hid hname phone hw
                (mkState (db st) (trace st ++ pre))) as (new & -> & Hnew).
    cbn [trace]. exists (pre ++ new)%list. split; [now rewrite app_assoc | ].
    apply Forall_app. split; [now apply Forall_hospital_select_known | exact Hnew].
Qed.

Lemma preferred_slot_is_transient_witness :
  db (fst (serve (withAiAnswer Sample.env (ok Sample.full))
             (Sample.twilioRequest "whatsapp:+15551234567" "whatsapp:+15559876543"
                "I have a fever") Sample.empty))
  = db (fst (serve (withAiAnswer (withAiAnswer Sample.env (ok Sample.full))
                      (ok (forgetPreferred Sample.full)))
               (Sample.twilioRequest "whatsapp:+15551234567"
                  "whatsapp:+15559876543" "I have a fever") Sample.empty)).
Proof.
  apply (proj1 (proj2 (preferred_slot_is_transient
                         (withAiAnswer Sample.env (ok Sample.full))
                         (Sample.twilioRequest "whatsapp:+15551234567"
                            "whatsapp:+15559876543" "I have a fever")
                         Sample.empty Sample.full eq_refl))).
Defined.

(** ** Twilio without credentials *)

Lemma unset_configured (s : string) : s <> EmptyString -> unset (Some s) = false.
Proof. intro H. unfold unset. now apply String.eqb_neq. Qed.

Lemma converse_without_twilio (env : Env) (msg : Message.t)
    (hospitalId hospitalName patientPhone hospitalWhatsApp : string)
    (st : State) (sid token : string) (answer : Json) :
  unset (TWILIO_ACCOUNT_SID env) || unset (TWILIO_AUTH_TOKEN env) = true ->
  sid <> EmptyString -> token <> EmptyString ->
  let env' := withTwilio env sid token answer in
  let r := converse env msg hospitalId hospitalName patientPhone hospitalWhatsApp st in
  let r' := converse env' msg hospitalId hospitalName patientPhone hospitalWhatsApp st in
  db (fst r) = db (fst r')
  /\ snd r = snd r'
  /\ exists new new',
       trace (fst r) = (trace st ++ new)%list
       /\ trace (fst r') = (trace st ++ new')%list
       /\ new = filter (fun e => negb (isTwilioCall e)) new'.
Proof.
  intros Hunset Hsid Htoken env' r r'. subst r r' env'. unfold converse, bind.
  change (resolveSession (withTwilio env sid token answer)
            hospitalId patientPhone st)
    with (resolveSession env hospitalId patientPhone st).
  destruct (selectConversation (whatsapp_conversations (db st)) hospitalId
              patientPhone (now_lookup env - window)) as [e | ] eqn:E;
    [ rewrite (resolveSession_hit _ _ _ _ _ E)
    | destruct (insertError env (whatsapp_conversations (db st))) as [err | ] eqn:Herr;
      [ rewrite (resolveSession_fail _ _ _ _ _ E Herr)
      | rewrite (resolveSession_miss _ _ _ _ E Herr); cbv zeta ] ];
    run_handler;
    cbn [withTwilio aiAnswer TWILIO_ACCOUNT_SID TWILIO_AUTH_TOKEN twilioAnswer
         appointmentAnswer now_inbound now_touch now_reply];
    rewrite ?Hunset, ?(unset_configured sid Hsid), ?(unset_configured token Htoken);
    cbn [orb];
    split_outcomes; rewrite <- ?app_assoc;
    (split; [reflexivity | ]; split; [reflexivity | ];
     eexists; eexists; split; [reflexivity | ]; split; reflexivity).
Qed.

Lemma filter_hospital_select (pre : list Event) :
  Forall (eq (ev_select t_hospitals)) pre ->
  filter (fun e => negb (isTwilioCall e)) pre = pre.
Proof.
  induction 1 as [ | e l <- _ IH ]; simpl; [reflexivity | now rewrite IH].
Qed.

(** C9: with the account id or the token missing, the send helper gives
    null, calls nothing and throws nothing.  The request then goes as it
    would with Twilio configured and answering: the same store at the end,
    so the same transcript and merged state, the same response, and the
    same calls in the same order but for the one to Twilio.  On the Twilio
    channel, once the AI function has answered, the merged update is
    written, the appointment is decided, and the reply is the empty TwiML
    acknowledgment. *)
Theorem missing_twilio_credentials_skip_send
    (env : Env) (req : Request) (st : State) (sid token : string)
    (answer : Json) :
  unset (TWILIO_ACCOUNT_SID env) || unset (TWILIO_AUTH_TOKEN env) = true ->
  sid <> EmptyString -> token <> EmptyString ->
  let env' := withTwilio env sid token answer in
  (forall from to body st0,
     sendWhatsAppMessageViaTwilio env from to body st0 = (st0, ok JNull))
  /\ db (fst (serve env req st)) = db (fst (serve env' req st))
  /\ snd (serve env req st) = snd (serve env' req st)
  /\ (exists new new',
        trace (fst (serve env req st)) = (trace st ++ new)%list
        /\ trace (fst (serve env' req st)) = (trace st ++ new')%list
        /\ new = filter (fun e => negb (isTwilioCall e)) new')
  /\ (forall msg hospitalId patientPhone hospitalWhatsApp conversation updated
             aiResult st0,
        Message.isBaileysBot msg = false ->
        appointmentAnswer env = ok tt ->
        let final := finalTranscript updated aiResult (now_reply env) in
        let m := merge conversation aiResult in
        conclude env msg hospitalId patientPhone hospitalWhatsApp conversation
          updated aiResult st0
        = (mkState
             (mkDatabase (hospitals (db st0))
                (updateWhereId (Conversation.id conversation)
                   (mergedColumns final m) (whatsapp_conversations (db st0))))
             (trace st0
              ++ ev_update (Conversation.id conversation) (mergedColumns final m)
                 :: (if shouldCreateAppointment conversation aiResult m
                     then [ev_appointment
                             (appointmentRequest conversation hospitalId
                                patientPhone m final)]
                     else [])),
           ok (mkResponse 200 (Some "text/xml")
                 (xml_body (xmlDeclaration ++ "<Response></Response>"))))).
Proof.
  intros Hunset Hsid Htoken env'.
  split.
  { intros from to body st0. unfold sendWhatsAppMessageViaTwilio.
    now rewrite Hunset. }
  assert (Hlast : forall msg hospitalId patientPhone hospitalWhatsApp conversation
                         updated aiResult st0,
             Message.isBaileysBot msg = false ->
             appointmentAnswer env = ok tt ->
             conclude env msg hospitalId patientPhone hospitalWhatsApp conversation
               updated aiResult st0
             = (mkState
                  (mkDatabase (hospitals (db st0))
                     (updateWhereId (Conversation.id conversation)
                        (mergedColumns
                           (finalTranscript updated aiResult (now_reply env))
                           (merge conversation aiResult))
                        (whatsapp_conversations (db st0))))
                  (trace st0
                   ++ ev_update (Conversation.id conversation)
                        (mergedColumns
                           (finalTranscript updated aiResult (now_reply env))
                           (merge conversation aiResult))
                      :: (if shouldCreateAppointment conversation aiResult
                               (merge conversation aiResult)
                          then [ev_appointment
                                  (appointmentRequest conversation hospitalId
                                     patientPhone (merge conversation aiResult)
                                     (finalTranscript updated aiResult
                                        (now_reply env)))]
                          else [])),
                ok (mkResponse 200 (Some "text/xml")
                      (xml_body (xmlDeclaration ++ "<Response></Response>"))))).
  { intros msg hid phone hw conversation updated aiResult st0 Hch Happ.
    run_handler. rewrite Hch, Hunset, Happ.
    cbn [db trace fst snd hospitals whatsapp_conversations].
    destruct (shouldCreateAppointment conversation aiResult
                (merge conversation aiResult));
      cbn [db trace fst snd hospitals whatsapp_conversations reply];
      rewrite <- ?app_assoc; reflexivity. }
  destruct (method req =? "OPTIONS")%string eqn:Hm.
  { unfold serve. rewrite Hm. cbn [fst snd]. repeat split; [ | exact Hlast].
    exists [], []. rewrite app_nil_r. repeat split. }
  rewrite !(serve_of_handle _ req st Hm). cbn [fst snd].
  destruct (handle_cases_both env env' req st eq_refl eq_refl)
    as [(pre & o & -> & -> & Hpre)
       | (pre & msg & hid & hname & phone & hw & Hpre & _ & -> & ->)].
  - cbn [fst snd db trace]. repeat split; [ | exact Hlast].
    exists pre, pre. repeat split. symmetry. now apply filter_hospital_select.
  - destruct (converse_without_twilio env msg hid hname phone hw
                (mkState (db st) (trace st ++ pre)) sid token answer
                Hunset Hsid Htoken)
      as (Hdb & Hout & new & new' & Hnew & Hnew' & Hfilter).
    fold env' in Hdb, Hout, Hnew'. cbn [trace] in Hnew, Hnew'.
    split; [exact Hdb | ]. split; [now rewrite Hout | ].
    split; [ | exact Hlast].
    exists (pre ++ new)%list, (pre ++ new')%list.
    rewrite Hnew, Hnew', !app_assoc. repeat split.
    rewrite filter_app, (filter_hospital_select pre Hpre). now rewrite Hfilter.
Qed.

Lemma missing_twilio_credentials_skip_send_witness :
  snd (serve Sample.env
         (Sample.twilioRequest "whatsapp:+15551234567" "whatsapp:+15559876543"
            "I have a fever") Sample.empty)
  = snd (serve (withTwilio Sample.env "AC1" "secret" (JObj []))
           (Sample.twilioRequest "whatsapp:+15551234567" "whatsapp:+15559876543"
              "I have a fever") Sample.empty).
Proof.
  apply (proj1 (proj2 (proj2 (missing_twilio_credentials_skip_send Sample.env
                  (Sample.twilioRequest "whatsapp:+15551234567"
                     "whatsapp:+15559876543" "I have a fever")
                  Sample.empty "AC1" "secret" (JObj [])
                  eq_refl ltac:(discriminate) ltac:(discriminate))))).
Defined.

(** ** The placeholder name *)

Lemma merge_no_name (conversation : Conversation.t) (aiResult : AiResult.t) :
  AiResult.patientName aiResult = None
  \/ AiResult.patientName aiResult = Some JNull ->
  Conversation.patient_name conversation = JNull ->
  patientName (merge conversation aiResult) = JNull.
Proof. intros [H | H] Hc; simpl; rewrite H, Hc; reflexivity. Qed.

(** C10: when the name is missing or null in the AI update and null in the
    session, the merged name is null and every appointment request the
    handler sends for that message names the patient 'WhatsApp Patient';
    and it does send one whenever the trigger fires, the reply having gone
    out. *)
Theorem placeholder_patient_name
    (env : Env) (msg : Message.t)
    (hospitalId patientPhone hospitalWhatsApp : string)
    (conversation : Conversation.t) (updated : list Turn)
    (aiResult : AiResult.t) (st : State) :
  AiResult.patientName aiResult = None
  \/ AiResult.patientName aiResult = Some JNull ->
  Conversation.patient_name conversation = JNull ->
  let m := merge conversation aiResult in
  let run :=
    conclude env msg hospitalId patientPhone hospitalWhatsApp conversation
      updated aiResult st in
  patientName m = JNull
  /\ (forall final,
        AppointmentRequest.patientName
          (appointmentRequest conversation hospitalId patientPhone m final)
        = JStr "WhatsApp Patient")
  /\ exists new,
       trace (fst run) = (trace st ++ new)%list
       /\ (forall r, In (ev_appointment r) new ->
                     AppointmentRequest.patientName r = JStr "WhatsApp Patient")
       /\ (shouldCreateAppointment conversation aiResult m = true ->
           Message.isBaileysBot msg = true
           \/ unset (TWILIO_ACCOUNT_SID env) || unset (TWILIO_AUTH_TOKEN env) = true
           \/ (exists sent, twilioAnswer env = ok sent) ->
           exists r, In (ev_appointment r) new).
Proof.
  intros Hai Hconv m run.
  pose proof (merge_no_name conversation aiResult Hai Hconv) as Hname.
  fold m in Hname.
  assert (Hreq : forall final,
             AppointmentRequest.patientName
               (appointmentRequest conversation hospitalId patientPhone m final)
             = JStr "WhatsApp Patient").
  { intro final. cbn [appointmentRequest AppointmentRequest.patientName].
    now rewrite Hname. }
  split; [exact Hname | ]. split; [exact Hreq | ].
  subst run. run_handler. fold m. split_outcomes; rewrite <- ?app_assoc;
    (eexists; split; [reflexivity | ]; split;
     [ simpl; intros r Hin;
       repeat (destruct Hin as [Hin | Hin]; try discriminate Hin);
       try contradiction; injection Hin as <-; apply Hreq
     | intros Hfire Hsent;
       try discriminate Hfire;
       try (destruct Hsent as [Hsent | [Hsent | [sent Hsent]]]; congruence);
       eexists; simpl; eauto 10 ]).
Qed.

Lemma placeholder_patient_name_witness :
  AppointmentRequest.patientName
    (appointmentRequest Sample.fresh "h1" "15551234567"
       (merge Sample.fresh Sample.criticalWithRequest) [])
  = JStr "WhatsApp Patient".
Proof.
  apply (proj1 (proj2 (placeholder_patient_name Sample.env Sample.hello "h1"
                         "15551234567" "15559876543" Sample.fresh []
                         Sample.criticalWithRequest Sample.empty
                         (or_introl eq_refl) eq_refl))).
Defined.

(** ** Every session keeps a state *)

Lemma merge_state_set (conversation : Conversation.t) (aiResult : AiResult.t) :
  AiResult.newState aiResult = None
  \/ (exists s, AiResult.newState aiResult = Some (JStr s)) ->
  Conversation.conversation_state conversation <> JNull ->
  newState (merge conversation aiResult) <> JNull.
Proof.
  intros [Hs | [s Hs]] H; simpl; rewrite Hs; unfold or_else; [exact H | ].
  destruct (truthy (JStr s)); [discriminate | exact H].
Qed.

Lemma Forall_updateWhereId (P : Conversation.t -> Prop) (i : string)
    (p : Conversation.Patch) (l : list Conversation.t) :
  Forall P l ->
  (forall c, P c -> P (Conversation.apply p c)) ->
  Forall P (updateWhereId i p l).
Proof.
  intros Hl Hp. unfold updateWhereId. apply Forall_map.
  eapply Forall_impl; [ | exact Hl]. intros c Hc.
  destruct (Conversation.id c =? i)%string; auto.
Qed.

Lemma converse_keeps_state_set (env : Env) (msg : Message.t)
    (hospitalId hospitalName patientPhone hospitalWhatsApp : string)
    (st : State) :
  (forall aiResult, aiAnswer env = ok aiResult ->
     AiResult.newState aiResult = None
     \/ exists s, AiResult.newState aiResult = Some (JStr s)) ->
  Forall (fun c => Conversation.conversation_state c <> JNull)
    (whatsapp_conversations (db st)) ->
  Forall (fun c => Conversation.conversation_state c <> JNull)
    (whatsapp_conversations (db (fst
       (converse env msg hospitalId hospitalName patientPhone hospitalWhatsApp st)))).
Proof.
  intros Hstring Hall.
  destruct (resolveSession env hospitalId patientPhone st)
    as [st1 [conversation | e]] eqn:R.
  - assert (Hall1 : Forall (fun c => Conversation.conversation_state c <> JNull)
                      (whatsapp_conversations (db st1))).
    { destruct (selectConversation (whatsapp_conversations (db st)) hospitalId
                  patientPhone (now_lookup env - window)) as [x | ] eqn:E.
      - rewrite (resolveSession_hit _ _ _ _ _ E) in R. inversion R; subst.
        exact Hall.
      - destruct (insertError env (whatsapp_conversations (db st))) as [err | ] eqn:Herr.
        + rewrite (resolveSession_fail _ _ _ _ _ E Herr) in R. discriminate.
        + rewrite (resolveSession_miss _ _ _ _ E Herr) in R. inversion R; subst.
          cbn. apply Forall_app. split; [exact Hall | ].
          constructor; [discriminate | constructor]. }
    assert (Hconv : Conversation.conversation_state conversation <> JNull).
    { rewrite Forall_forall in Hall1. apply Hall1.
      eapply resolveSession_member; eauto. }
    assert (Htouch : forall c updated now,
               Conversation.conversation_state c <> JNull ->
               Conversation.conversation_state
                 (Conversation.apply (inboundColumns updated now) c) <> JNull).
    { intros c updated now Hc. destruct c. exact Hc. }
    destruct (converse_rows env msg hospitalId hospitalName patientPhone
                hospitalWhatsApp st st1 conversation R)
      as [[-> _] | (aiResult & Hai & ->)].
    + apply Forall_updateWhereId; [exact Hall1 | ]. intros c Hc. now apply Htouch.
    + apply Forall_updateWhereId.
      * apply Forall_updateWhereId; [exact Hall1 | ]. intros c Hc. now apply Htouch.
      * intros c _. destruct c. cbn. apply merge_state_set; [ | exact Hconv].
        now apply Hstring.
  - unfold converse, bind. rewrite R. cbn.
    destruct (selectConversation (whatsapp_conversations (db st)) hospitalId
                patientPhone (now_lookup env - window)) as [x | ] eqn:E.
    + rewrite (resolveSession_hit _ _ _ _ _ E) in R. discriminate.
    + destruct (insertError env (whatsapp_conversations (db st))) as [err | ] eqn:Herr.
      * rewrite (resolveSession_fail _ _ _ _ _ E Herr) in R. inversion R; subst.
        exact Hall.
      * rewrite (resolveSession_miss _ _ _ _ E Herr) in R. discriminate.
Qed.

(** X19: when the AI answer names its new state as a string, or names
    none, a store in which every session has a state stays so under the
    handler: a new session starts in 'greeting', a string that is not empty
    is written as it is, and the merge keeps the old state otherwise, so
    the filter on the state does not meet a null cell. *)
Lemma serve_keeps_state_set (env : Env) (req : Request) (st : State) :
  (forall aiResult, aiAnswer env = ok aiResult ->
     AiResult.newState aiResult = None
     \/ exists s, AiResult.newState aiResult = Some (JStr s)) ->
  Forall (fun c => Conversation.conversation_state c <> JNull)
    (whatsapp_conversations (db st)) ->
  Forall (fun c => Conversation.conversation_state c <> JNull)
    (whatsapp_conversations (db (fst (serve env req st)))).
Proof.
  intros Hstring Hall. rewrite serve_state.
  destruct (method req =? "OPTIONS")%string; [exact Hall | ].
  destruct (handle_cases env req st)
    as [(pre & o & -> & _) | (pre & msg & hid & hname & phone & hw & _ & ->)].
  - exact Hall.
  - now apply converse_keeps_state_set.
Qed.

(** * Further properties of the handler *)

(** ** Addresses *)

Lemma prefix_app (p s : string) : String.prefix p (p ++ s) = true.
Proof.
  induction p as [ | c p IH ]; simpl; [now destruct s | ].
  destruct (Ascii.ascii_dec c c) as [_ | H]; [exact IH | now elim H].
Qed.

Lemma prefix_split (p s : string) :
  String.prefix p s = true -> exists rest, s = p ++ rest.
Proof.
  revert s. induction p as [ | c p IH ]; intros s H.
  - now exists s.
  - destruct s as [ | d s ]; [discriminate | ]. simpl in H.
    destruct (Ascii.ascii_dec c d) as [-> | _]; [ | discriminate].
    destruct (IH s H) as [rest ->]. now exists rest.
Qed.

Lemma skip_app (p s : string) : skip (String.length p) (p ++ s) = s.
Proof. induction p as [ | c p IH ]; simpl; [now destruct s | exact IH]. Qed.

Lemma includes_false_prefix (p s : string) :
  includes p s = false -> String.prefix p s = false.
Proof. destruct s; cbn [includes]; intro H; now apply orb_false_iff in H. Qed.

Lemma replace_absent (p r s : string) :
  includes p s = false -> replace p r s = s.
Proof.
  induction s as [ | c s IH ]; intro H; cbn [replace].
  - rewrite (includes_false_prefix _ _ H). reflexivity.
  - rewrite (includes_false_prefix _ _ H). cbn [includes] in H.
    apply orb_false_iff in H. destruct H as [_ H]. now rewrite IH.
Qed.

Lemma replace_prefix (p r s : string) :
  String.prefix p s = true ->
  replace p r s = r ++ skip (String.length p) s.
Proof. intro H. destruct s; cbn [replace]; now rewrite H. Qed.

Lemma replace_at_head (p r s : string) : replace p r (p ++ s) = r ++ s.
Proof. now rewrite (replace_prefix _ _ _ (prefix_app p s)), skip_app. Qed.

Lemma replace_after (c : ascii) (p r s : string) :
  String.prefix p (String c s) = false ->
  replace p r (String c s) = String c (replace p r s).
Proof. intro H. cbn [replace]. now rewrite H. Qed.

(** X1: the four spellings of one number give one key.  For an address
    [n] with no sign and no [whatsapp:] in it, the address as Twilio sends
    it ([whatsapp:+n]), with the scheme only, with the sign only, and bare
    all normalize to [n]: both channels find the same tenant and the same
    session for a number. *)
Theorem normalize_same_key (n : string) :
  includes "+" n = false ->
  includes "whatsapp:" n = false ->
  normalize ("whatsapp:+" ++ n) = n
  /\ normalize ("whatsapp:" ++ n) = n
  /\ normalize ("+" ++ n) = n
  /\ normalize n = n.
Proof.
  intros Hsign Hscheme. unfold normalize.
  assert (Hplus : replace "+" EmptyString ("+" ++ n) = n)
    by apply (replace_at_head "+" EmptyString n).
  repeat split.
  - change ("whatsapp:+" ++ n) with ("whatsapp:" ++ ("+" ++ n)).
    rewrite (replace_at_head "whatsapp:" EmptyString ("+" ++ n)). exact Hplus.
  - rewrite (replace_at_head "whatsapp:" EmptyString n).
    now apply replace_absent.
  - change ("+" ++ n) with (String "+" n).
    rewrite replace_after by reflexivity.
    rewrite (replace_absent _ _ _ Hscheme). exact Hplus.
  - rewrite (replace_absent _ _ _ Hscheme). now apply replace_absent.
Qed.

Lemma normalize_same_key_witness :
  normalize "whatsapp:+15551234567" = "15551234567"
  /\ normalize "15551234567" = "15551234567".
Proof.
  destruct (normalize_same_key "15551234567" eq_refl eq_refl)
    as (H1 & _ & _ & H4).
  split; [exact H1 | exact H4].
Defined.

(** X2: only the first sign goes.  Whatever follows the scheme and the
    first sign is kept as it is, further signs included, so an address
    normalizes to what Twilio put after [whatsapp:+]. *)
Theorem normalize_strips_once (n : string) :
  normalize ("whatsapp:+" ++ n) = n.
Proof.
  unfold normalize.
  change ("whatsapp:+" ++ n) with ("whatsapp:" ++ ("+" ++ n)).
  rewrite (replace_at_head "whatsapp:" EmptyString ("+" ++ n)).
  apply (replace_at_head "+" EmptyString n).
Qed.

(** ** The channel *)

Lemma includes_split (p s : string) :
  includes p s = true <-> exists a b, s = a ++ p ++ b.
Proof.
  split.
  - induction s as [ | c s IH ]; cbn [includes]; intro H.
    + rewrite orb_false_r in H. destruct (prefix_split _ _ H) as [b ->].
      now exists EmptyString, b.
    + apply orb_true_iff in H. destruct H as [H | H].
      * destruct (prefix_split _ _ H) as [b ->]. now exists EmptyString, b.
      * destruct (IH H) as (a & b & ->). now exists (String c a), b.
  - intros (a & b & ->). induction a as [ | c a IH ].
    + change (EmptyString ++ p ++ b) with (p ++ b).
      pose proof (prefix_app p b) as Hp.
      destruct (p ++ b); cbn [includes]; now rewrite Hp.
    + change (String c a ++ p ++ b) with (String c (a ++ p ++ b)).
      cbn [includes]. rewrite IH. apply orb_true_r.
Qed.

(** X3: the channel is read off the [content-type] header by substring: a
    request is taken for a bot request exactly when its header has
    [application/json] somewhere in it, whatever comes before or after, and
    a request with no header is taken for a Twilio form. *)
Theorem json_channel_by_substring (req : Request) :
  (isJson req = true <->
   exists a b, content_type req = Some (a ++ "application/json" ++ b))
  /\ (content_type req = None -> isJson req = false).
Proof.
  unfold isJson, field. split.
  - rewrite includes_split. split.
    + intros (a & b & H). destruct (content_type req) as [c | ].
      * exists a, b. now rewrite H.
      * destruct a; discriminate.
    + intros (a & b & ->). now exists a, b.
  - intros ->. reflexivity.
Qed.

(** ** Where a request goes *)

(** The three ways through [handle]: an error before any call, the "not
    configured" reply after the tenant lookups, or [converse] on the
    normalized addresses. *)
Lemma handle_routes (env : Env) (req : Request) (st : State) :
  (exists e, handle env req st = (st, thrown e))
  \/ exists msg from to pre,
       snd (readMessage env req st) = ok msg
       /\ Message.from msg = JStr from
       /\ Message.to msg = JStr to
       /\ Forall (eq (ev_select t_hospitals)) pre
       /\ (handle env req st
           = (mkState (db st) (trace st ++ pre), ok (notConfigured (isJson req)))
           \/ exists hospitalId hospitalName,
                handle env req st
                = converse env msg hospitalId hospitalName (normalize from)
                    (normalize to) (mkState (db st) (trace st ++ pre))).
Proof.
  unfold handle, bind.
  pose proof (readMessage_state env req st) as Hread.
  pose proof (readMessage_channel env req st) as Hch.
  destruct (readMessage env req st) as [st0 [msg | e]]; cbn in Hread; subst st0;
    [ specialize (Hch msg eq_refl) | left; now exists e ].
  rewrite logMessage_run.
  destruct (printable (Message.from msg) && printable (Message.to msg)
            && printable (Message.body msg));
    [ | left; eexists; reflexivity ].
  destruct (Message.from msg) as [ | b | n | from | l | f ] eqn:Hfrom;
    cbn [stripped throw ret]; try (left; eexists; reflexivity).
  destruct (Message.to msg) as [ | b | n | to | l | f ] eqn:Hto;
    cbn [stripped throw ret]; try (left; eexists; reflexivity).
  right. exists msg, from, to.
  unfold resolveHospital, bind, emit, hospitalRows, ret.
  cbn [db trace fst snd]. rewrite <- Hch.
  destruct (selectHospital (orAnswer env) (hospitals (db st)) (normalize to))
    as [h | ].
  - exists [ev_select t_hospitals].
    repeat split; try assumption; [repeat constructor | ].
    destruct (noHospital (Some (Hospital.id h))); [now left | right; eauto].
  - cbn [db trace fst snd]. exists [ev_select t_hospitals; ev_select t_hospitals].
    rewrite <- app_assoc.
    repeat split; try assumption; [repeat constructor | ].
    destruct (selectFallbackHospital (hospitals (db st))) as [h | ];
      [ destruct (noHospital (Some (Hospital.id h))); [now left | right; eauto]
      | now left ].
Qed.

(** What [converse] answers when it does not throw. *)
Lemma converse_ok (env : Env) (msg : Message.t)
    (hospitalId hospitalName patientPhone hospitalWhatsApp : string)
    (st : State) (r : Response) :
  snd (converse env msg hospitalId hospitalName patientPhone hospitalWhatsApp st)
  = ok r ->
  exists conversation aiResult,
    aiAnswer env = ok aiResult
    /\ r = reply (Message.isBaileysBot msg) aiResult conversation
             (merge conversation aiResult).
Proof.
  unfold converse, bind.
  destruct (resolveSession env hospitalId patientPhone st)
    as [st1 [conversation | e]]; [ | discriminate].
  run_handler. split_outcomes; intro H; try discriminate H;
    injection H as <-;
    match goal with
    | Hai : aiAnswer env = ok ?a |- _ =>
        exists conversation, a; split; reflexivity
    end.
Qed.

Lemma reply_channel (b : bool) (aiResult : AiResult.t)
    (conversation : Conversation.t) (m : Merged) :
  status (reply b aiResult conversation m) = 200
  /\ contentType (reply b aiResult conversation m)
     = Some (if b then "application/json" else "text/xml").
Proof. destruct b; split; reflexivity. Qed.

(** X4: every request but a preflight is answered in the form of its
    channel, also when the handler fails: the content type is JSON for a
    bot request and XML for a Twilio form.  A Twilio form is always
    answered with status 200; a bot request is answered with 500 exactly
    when the handler threw, and with 200 otherwise. *)
Theorem response_matches_channel (env : Env) (req : Request) (st : State) :
  method req <> "OPTIONS" ->
  let r := snd (serve env req st) in
  contentType r = Some (channelType req)
  /\ (isJson req = false -> status r = 200)
  /\ (isJson req = true ->
      (status r = 500 <-> exists e, snd (handle env req st) = thrown e)
      /\ (status r = 200 <-> exists response, snd (handle env req st) = ok response)).
Proof.
  intros Hm r. subst r. apply String.eqb_neq in Hm.
  rewrite (serve_of_handle env req st Hm). cbn [snd]. unfold channelType.
  assert (Hok : forall response, snd (handle env req st) = ok response ->
                  status response = 200
                  /\ contentType response
                     = Some (if isJson req then "application/json" else "text/xml")).
  { intros response H.
    destruct (handle_routes env req st)
      as [[e He] | (msg & from & to & pre & Hmsg & _ & _ & _ & [He | (hid & hn & He)])];
      rewrite He in H.
    - discriminate.
    - cbn in H. injection H as <-. unfold notConfigured.
      destruct (isJson req); split; reflexivity.
    - apply converse_ok in H. destruct H as (c & a & _ & ->).
      rewrite <- (readMessage_channel env req st msg Hmsg). apply reply_channel. }
  destruct (snd (handle env req st)) as [response | e].
  - destruct (Hok response eq_refl) as [Hs Hc].
    split; [exact Hc | ]. split; [intros _; exact Hs | ]. intros _. rewrite Hs.
    split; split; intro H; try discriminate; try (now destruct H); eauto.
  - unfold errorReply. destruct (isJson req); cbn.
    + split; [reflexivity | ]. split; [discriminate | ]. intros _.
      split; split; intro H; try discriminate; try (now destruct H); eauto.
    + split; [reflexivity | ]. split; [reflexivity | ]. discriminate.
Qed.

Lemma response_matches_channel_witness :
  contentType (snd (serve More.refusing
                      (Sample.baileysRequest "15551234567" "15559876543" "hi")
                      Sample.empty))
  = Some "application/json".
Proof.
  apply (proj1 (response_matches_channel More.refusing
                  (Sample.baileysRequest "15551234567" "15559876543" "hi")
                  Sample.empty ltac:(discriminate))).
Defined.

(** X5: a bot request whose sender is not a string ends in an error
    before anything is done.  When [from] is a truthy JSON value other than
    a string, a number for instance, [from.replace] throws, if the log
    line has not thrown before it: the answer is
    the JSON apology with status 500, the store is as it was and no call
    was made, not even the tenant lookup. *)
Theorem non_string_sender_is_an_error
    (env : Env) (req : Request) (st : State) (data : JsonData.t) (v : Json) :
  method req <> "OPTIONS" ->
  isJson req = true ->
  json req = ok data ->
  JsonData.from data = Some v ->
  truthy v = true ->
  (forall s, v <> JStr s) ->
  exists message,
    serve env req st = (st, errorReply req message)
    /\ status (errorReply req message) = 500
    /\ contentType (errorReply req message) = Some "application/json".
Proof.
  intros Hm Hjson Hdata Hfrom Htruthy Hstr. apply String.eqb_neq in Hm.
  unfold serve. rewrite Hm. unfold handle, bind, readMessage.
  rewrite Hjson. unfold bind, await, ret. rewrite Hdata.
  rewrite logMessage_run.
  assert (Hend : forall message,
             status (errorReply req message) = 500
             /\ contentType (errorReply req message) = Some "application/json")
    by (intro message; unfold errorReply; rewrite Hjson; split; reflexivity).
  match goal with
  | |- context [if ?b then ok tt else _] => destruct b
  end; [ | eexists; split; [reflexivity | apply Hend] ].
  cbn [Message.from]. rewrite Hfrom. unfold or_else at 1. rewrite Htruthy.
  destruct v as [ | b | n | s | l | f ]; cbn [stripped throw];
    try (eexists; split; [reflexivity | apply Hend]).
  now elim (Hstr s).
Qed.

Lemma non_string_sender_is_an_error_witness :
  exists message,
    serve Sample.env More.numericSender Sample.busy
    = (Sample.busy, errorReply More.numericSender message).
Proof.
  destruct (non_string_sender_is_an_error Sample.env More.numericSender
              Sample.busy
              (JsonData.mk (Some (JNum 15551234567)) (Some (JStr "15559876543"))
                 (Some (JStr "hi")) None None None None)
              (JNum 15551234567)
              ltac:(discriminate) eq_refl eq_refl eq_refl eq_refl
              ltac:(discriminate)) as (message & H & _).
  now exists message.
Defined.

(** ** Calls to Twilio *)

Ltac twilio_calls :=
  simpl; intros ? Hin;
  repeat (destruct Hin as [Hin | Hin]; try discriminate Hin);
  try contradiction;
  injection Hin as <-; repeat split; eauto.

Lemma converse_twilio (env : Env) (msg : Message.t)
    (hospitalId hospitalName patientPhone hospitalWhatsApp : string)
    (st : State) :
  exists new,
    trace (fst (converse env msg hospitalId hospitalName patientPhone
                  hospitalWhatsApp st))
    = (trace st ++ new)%list
    /\ forall form, In (ev_twilio form) new ->
         TwilioMessage.From form = "whatsapp:+" ++ hospitalWhatsApp
         /\ TwilioMessage.To form = "whatsapp:+" ++ patientPhone
         /\ Message.isBaileysBot msg = false
         /\ unset (TWILIO_ACCOUNT_SID env) || unset (TWILIO_AUTH_TOKEN env) = false
         /\ exists aiResult,
              aiAnswer env = ok aiResult
              /\ TwilioMessage.Body form = AiResult.response aiResult.
Proof.
  unfold converse, bind.
  destruct (selectConversation (whatsapp_conversations (db st)) hospitalId
              patientPhone (now_lookup env - window)) as [e | ] eqn:E;
    [ rewrite (resolveSession_hit _ _ _ _ _ E)
    | destruct (insertError env (whatsapp_conversations (db st))) as [err | ] eqn:Herr;
      [ rewrite (resolveSession_fail _ _ _ _ _ E Herr)
      | rewrite (resolveSession_miss _ _ _ _ E Herr); cbv zeta ] ];
    run_handler; split_outcomes;
    rewrite <- ?app_assoc;
    (eexists; split; [reflexivity | twilio_calls]).
Qed.

(** X6: a bot request never calls Twilio, whatever the credentials: the
    bot sends the reply itself, from the JSON answer. *)
Theorem bot_request_never_calls_twilio
    (env : Env) (req : Request) (st : State) :
  isJson req = true ->
  exists new,
    trace (fst (serve env req st)) = (trace st ++ new)%list
    /\ Forall (fun e => isTwilioCall e = false) new.
Proof.
  intro Hjson. rewrite serve_state.
  destruct (method req =? "OPTIONS")%string.
  { exists []. now rewrite app_nil_r. }
  destruct (handle_routes env req st)
    as [[e ->] | (msg & from & to & pre & Hmsg & _ & _ & Hpre
                  & [-> | (hid & hn & ->)])]; cbn [fst trace].
  - exists []. now rewrite app_nil_r.
  - exists pre. split; [reflexivity | ].
    eapply Forall_impl; [ | exact Hpre]. now intros e <-.
  - destruct (converse_twilio env msg hid hn (normalize from) (normalize to)
                (mkState (db st) (trace st ++ pre))) as (new & -> & Hnew).
    cbn [trace]. exists (pre ++ new)%list. split; [now rewrite app_assoc | ].
    apply Forall_app. split.
    + eapply Forall_impl; [ | exact Hpre]. now intros e <-.
    + apply Forall_forall. intros e He. destruct e; try reflexivity.
      destruct (Hnew form He) as (_ & _ & Hbot & _).
      rewrite (readMessage_channel env req st msg Hmsg), Hjson in Hbot.
      discriminate.
Qed.

Lemma bot_request_never_calls_twilio_witness :
  exists new,
    trace (fst (serve More.twilioEnv
                  (Sample.baileysRequest "15551234567" "15559876543" "hi")
                  Sample.empty))
    = new
    /\ Forall (fun e => isTwilioCall e = false) new.
Proof.
  destruct (bot_request_never_calls_twilio More.twilioEnv
              (Sample.baileysRequest "15551234567" "15559876543" "hi")
              Sample.empty eq_refl) as (new & H & Hnew).
  exists new. split; [exact H | exact Hnew].
Defined.

(** X7: on the Twilio channel the reply goes back the way the message
    came.  For a form with [From = whatsapp:+n] and [To = whatsapp:+h],
    every call the handler makes to Twilio is sent from [whatsapp:+h] to
    [whatsapp:+n] and carries the [response] of the AI answer. *)
Theorem twilio_reply_goes_back
    (env : Env) (req : Request) (st : State) (form : FormData.t)
    (n h : string) :
  isJson req = false ->
  formData req = ok form ->
  FormData.From form = Some ("whatsapp:+" ++ n) ->
  FormData.To form = Some ("whatsapp:+" ++ h) ->
  exists new,
    trace (fst (serve env req st)) = (trace st ++ new)%list
    /\ forall sent, In (ev_twilio sent) new ->
         TwilioMessage.From sent = "whatsapp:+" ++ h
         /\ TwilioMessage.To sent = "whatsapp:+" ++ n
         /\ exists aiResult,
              aiAnswer env = ok aiResult
              /\ TwilioMessage.Body sent = AiResult.response aiResult.
Proof.
  intros Hjson Hform Hfrom Hto. rewrite serve_state.
  destruct (method req =? "OPTIONS")%string.
  { exists []. rewrite app_nil_r. split; [reflexivity | intros sent []]. }
  assert (Hread : snd (readMessage env req st)
                  = ok (Message.mk (JStr ("whatsapp:+" ++ n))
                          (JStr ("whatsapp:+" ++ h))
                          (JStr (field (FormData.Body form)))
                          (JStr (field (FormData.MessageSid form))) false)).
  { unfold readMessage. rewrite Hjson. unfold bind, await, ret.
    rewrite Hform, Hfrom, Hto. reflexivity. }
  destruct (handle_routes env req st)
    as [[e ->] | (msg & from & to & pre & Hmsg & Hf & Ht & Hpre
                  & [-> | (hid & hn & ->)])]; cbn [fst trace].
  - exists []. rewrite app_nil_r. split; [reflexivity | intros sent []].
  - exists pre. split; [reflexivity | ]. intros sent Hin.
    rewrite Forall_forall in Hpre. specialize (Hpre _ Hin). discriminate.
  - rewrite Hread in Hmsg.
    assert (Emsg : msg = Message.mk (JStr ("whatsapp:+" ++ n))
                           (JStr ("whatsapp:+" ++ h))
                           (JStr (field (FormData.Body form)))
                           (JStr (field (FormData.MessageSid form))) false)
      by congruence.
    subst msg. cbn [Message.from Message.to] in Hf, Ht.
    assert (Ef : from = "whatsapp:+" ++ n) by congruence.
    assert (Et : to = "whatsapp:+" ++ h) by congruence.
    subst from to.
    assert (Hn : forall s, normalize ("whatsapp:+" ++ s) = s).
    { intro s. unfold normalize.
      change ("whatsapp:+" ++ s) with ("whatsapp:" ++ ("+" ++ s)).
      rewrite (replace_at_head "whatsapp:" EmptyString ("+" ++ s)).
      apply (replace_at_head "+" EmptyString s). }
    rewrite !Hn.
    destruct (converse_twilio env
                (Message.mk (JStr ("whatsapp:+" ++ n)) (JStr ("whatsapp:+" ++ h))
                   (JStr (field (FormData.Body form)))
                   (JStr (field (FormData.MessageSid form))) false)
                hid hn n h (mkState (db st) (trace st ++ pre)))
      as (new & -> & Hnew).
    cbn [trace]. exists (pre ++ new)%list. split; [now rewrite app_assoc | ].
    intros sent Hin. apply in_app_or in Hin. destruct Hin as [Hin | Hin].
    + rewrite Forall_forall in Hpre. specialize (Hpre _ Hin). discriminate.
    + destruct (Hnew sent Hin) as (H1 & H2 & _ & _ & H3). auto.
Qed.

Lemma twilio_reply_goes_back_witness :
  exists new,
    trace (fst (serve More.twilioEnv
                  (Sample.twilioRequest "whatsapp:+15551234567"
                     "whatsapp:+15559876543" "I have a fever") Sample.empty))
    = new
    /\ forall sent, In (ev_twilio sent) new ->
         TwilioMessage.To sent = "whatsapp:+15551234567".
Proof.
  destruct (twilio_reply_goes_back More.twilioEnv
              (Sample.twilioRequest "whatsapp:+15551234567"
                 "whatsapp:+15559876543" "I have a fever") Sample.empty
              (FormData.mk (Some "whatsapp:+15551234567")
                 (Some "whatsapp:+15559876543") (Some "I have a fever")
                 (Some "SM1") (Some "0"))
              "15551234567" "15559876543" eq_refl eq_refl eq_refl eq_refl)
    as (new & H & Hnew).
  exists new. split; [exact H | ]. intros sent Hin. now apply Hnew.
Defined.

(** With Twilio configured the reply of the AI function is sent once. *)
Example twilio_reply_sent :
  filter isTwilioCall
    (trace (fst (serve More.twilioEnv
                   (Sample.twilioRequest "whatsapp:+15551234567"
                      "whatsapp:+15559876543" "I have a fever") Sample.empty)))
  = [ev_twilio (TwilioMessage.mk "AC1" "whatsapp:+15559876543"
                  "whatsapp:+15551234567" (Some (JStr "Hello")))].
Proof. reflexivity. Qed.

(** ** When a call fails *)

(** X8: a session that cannot be created ends the request.  With no live
    session for the pair and the insert refused, the error of the store is
    thrown on: the table is as it was, and after the lookup and the insert
    no call is made, neither to the AI function nor to anything else. *)
Theorem creation_failure_is_fatal
    (env : Env) (msg : Message.t)
    (hospitalId hospitalName patientPhone hospitalWhatsApp : string)
    (st : State) (e : string) :
  (forall c, In c (whatsapp_conversations (db st)) ->
             ~ live hospitalId patientPhone (now_lookup env) c) ->
  createError env = Some e ->
  converse env msg hospitalId hospitalName patientPhone hospitalWhatsApp st
  = (mkState (db st)
       (trace st ++ [ev_select t_whatsapp_conversations;
                     ev_insert (newConversationColumns hospitalId patientPhone)]),
     thrown e).
Proof.
  intros Hnone Herr. apply selectConversation_None in Hnone.
  unfold converse, bind.
  now rewrite (resolveSession_fail _ _ _ _ _ Hnone
                 (insertError_refused _ _ _ Herr)).
Qed.

Lemma creation_failure_is_fatal_witness :
  converse More.refusing Sample.hello "h1" "General" "15551234567" "15559876543"
    Sample.stale
  = (mkState (db Sample.stale)
       [ev_select t_whatsapp_conversations;
        ev_insert (newConversationColumns "h1" "15551234567")],
     thrown "duplicate key").
Proof.
  apply (creation_failure_is_fatal More.refusing Sample.hello "h1" "General"
           "15551234567" "15559876543" Sample.stale "duplicate key").
  - intros c [<- | []]. unfold live; cbn. intros (_ & _ & _ & _ & H). lia.
  - reflexivity.
Defined.

(** X9: the patient's turn is stored before the AI function is called and
    stays stored when that call fails.  The request then ends in the error
    of the call; the session's row holds the transcript with the inbound
    turn and the new [last_message_at], and nothing else was written or
    sent. *)
Theorem ai_failure_keeps_inbound_turn
    (env : Env) (msg : Message.t)
    (hospitalId hospitalName patientPhone hospitalWhatsApp : string)
    (st st1 : State) (conversation : Conversation.t) (e : string) :
  resolveSession env hospitalId patientPhone st = (st1, ok conversation) ->
  aiAnswer env = thrown e ->
  let updated :=
    updatedTranscript conversation (Message.body msg) (Message.messageSid msg)
      (now_inbound env) in
  let run :=
    converse env msg hospitalId hospitalName patientPhone hospitalWhatsApp st in
  run
  = (mkState
       (mkDatabase (hospitals (db st1))
          (updateWhereId (Conversation.id conversation)
             (inboundColumns updated (now_touch env))
             (whatsapp_conversations (db st1))))
       (trace st1
        ++ [ev_update (Conversation.id conversation)
              (inboundColumns updated (now_touch env));
            ev_ai (aiRequest conversation patientPhone hospitalId hospitalName
                     (Message.body msg) updated)]),
     thrown e)
  /\ (exists c, In c (whatsapp_conversations (db (fst run)))
                /\ Conversation.id c = Conversation.id conversation)
  /\ forall c, In c (whatsapp_conversations (db (fst run))) ->
       Conversation.id c = Conversation.id conversation ->
       Conversation.transcript c = Some updated
       /\ Conversation.last_message_at c = now_touch env.
Proof.
  intros R Hai updated run.
  assert (Hrun : run
    = (mkState
         (mkDatabase (hospitals (db st1))
            (updateWhereId (Conversation.id conversation)
               (inboundColumns updated (now_touch env))
               (whatsapp_conversations (db st1))))
         (trace st1
          ++ [ev_update (Conversation.id conversation)
                (inboundColumns updated (now_touch env));
              ev_ai (aiRequest conversation patientPhone hospitalId hospitalName
                       (Message.body msg) updated)]),
       thrown e)).
  { subst run. unfold converse, bind. rewrite R. run_handler. rewrite Hai.
    cbn [db trace fst snd hospitals whatsapp_conversations].
    now rewrite <- app_assoc. }
  split; [exact Hrun | ]. rewrite Hrun. cbn [fst db whatsapp_conversations].
  split.
  - eexists. split.
    + apply updateWhereId_has;
        [eapply resolveSession_member; eauto | reflexivity].
    + apply apply_keeps_id, inboundColumns_no_id.
  - intros c Hc Hid.
    apply updateWhereId_hit in Hc; [ | apply inboundColumns_no_id | exact Hid].
    destruct Hc as (c0 & _ & _ & ->). destruct c0. split; reflexivity.
Qed.

Lemma ai_failure_keeps_inbound_turn_witness :
  snd (converse More.aiDown Sample.hello "h1" "General" "15551234567"
         "15559876543" Sample.busy)
  = thrown "fetch failed".
Proof.
  destruct (ai_failure_keeps_inbound_turn More.aiDown Sample.hello "h1" "General"
              "15551234567" "15559876543" Sample.busy More.lookedUp
              Sample.newest "fetch failed" eq_refl eq_refl) as (H & _).
  now rewrite H.
Defined.

(** X10: the reply is sent before the answer of the AI function is stored,
    so a failing call to Twilio loses it.  With Twilio configured and its
    call throwing, the request ends in that error after the inbound write,
    the call to the AI function and the call to Twilio: the assistant's
    turn and the merged fields are not written and no appointment is
    asked for. *)
Theorem twilio_failure_skips_merge
    (env : Env) (msg : Message.t)
    (hospitalId hospitalName patientPhone hospitalWhatsApp : string)
    (st st1 : State) (conversation : Conversation.t)
    (aiResult : AiResult.t) (e : string) :
  resolveSession env hospitalId patientPhone st = (st1, ok conversation) ->
  aiAnswer env = ok aiResult ->
  Message.isBaileysBot msg = false ->
  unset (TWILIO_ACCOUNT_SID env) || unset (TWILIO_AUTH_TOKEN env) = false ->
  twilioAnswer env = thrown e ->
  let updated :=
    updatedTranscript conversation (Message.body msg) (Message.messageSid msg)
      (now_inbound env) in
  converse env msg hospitalId hospitalName patientPhone hospitalWhatsApp st
  = (mkState
       (mkDatabase (hospitals (db st1))
          (updateWhereId (Conversation.id conversation)
             (inboundColumns updated (now_touch env))
             (whatsapp_conversations (db st1))))
       (trace st1
        ++ [ev_update (Conversation.id conversation)
              (inboundColumns updated (now_touch env));
            ev_ai (aiRequest conversation patientPhone hospitalId hospitalName
                     (Message.body msg) updated);
            ev_twilio (TwilioMessage.mk (field (TWILIO_ACCOUNT_SID env))
                         ("whatsapp:+" ++ hospitalWhatsApp)
                         ("whatsapp:+" ++ patientPhone)
                         (AiResult.response aiResult))]),
     thrown e).
Proof.
  intros R Hai Hbot Hcreds Htwilio updated.
  unfold converse, bind. rewrite R. run_handler.
  rewrite Hai, Hbot, Hcreds.
  cbn [db trace fst snd hospitals whatsapp_conversations].
  rewrite Htwilio.
  cbn [db trace fst snd hospitals whatsapp_conversations].
  now rewrite <- !app_assoc.
Qed.

Lemma twilio_failure_skips_merge_witness :
  snd (converse More.twilioDown Sample.hello "h1" "General" "15551234567"
         "15559876543" Sample.busy)
  = thrown "twilio down".
Proof.
  rewrite (twilio_failure_skips_merge More.twilioDown Sample.hello "h1" "General"
             "15551234567" "15559876543" Sample.busy More.lookedUp
             Sample.newest Sample.answer "twilio down"
             eq_refl eq_refl eq_refl eq_refl eq_refl).
  reflexivity.
Defined.

(** X11: the call to the appointment function is awaited, so its failure
    fails the request, after everything else is done.  When the trigger
    fires and the call throws, the request ends in that error although the
    merged update is written (and the reply sent, on the Twilio channel):
    the appointment request is the last call made. *)
Theorem appointment_failure_after_merge
    (env : Env) (msg : Message.t)
    (hospitalId patientPhone hospitalWhatsApp : string)
    (conversation : Conversation.t) (updated : list Turn)
    (aiResult : AiResult.t) (st : State) (e : string) :
  shouldCreateAppointment conversation aiResult (merge conversation aiResult)
  = true ->
  Message.isBaileysBot msg = true
  \/ unset (TWILIO_ACCOUNT_SID env) || unset (TWILIO_AUTH_TOKEN env) = true
  \/ (exists sent, twilioAnswer env = ok sent) ->
  appointmentAnswer env = thrown e ->
  let final := finalTranscript updated aiResult (now_reply env) in
  let m := merge conversation aiResult in
  let run :=
    conclude env msg hospitalId patientPhone hospitalWhatsApp conversation
      updated aiResult st in
  snd run = thrown e
  /\ whatsapp_conversations (db (fst run))
     = updateWhereId (Conversation.id conversation) (mergedColumns final m)
         (whatsapp_conversations (db st))
  /\ exists pre,
       trace (fst run)
       = (trace st ++ pre
          ++ [ev_update (Conversation.id conversation) (mergedColumns final m);
              ev_appointment
                (appointmentRequest conversation hospitalId patientPhone m final)])%list
       /\ Forall (fun ev => isTwilioCall ev = true) pre.
Proof.
  intros Hfire Hsent Happ final m run. subst run final m. run_handler.
  rewrite Hfire, Happ.
  destruct (Message.isBaileysBot msg) eqn:Hbot;
    [ | destruct (unset (TWILIO_ACCOUNT_SID env) || unset (TWILIO_AUTH_TOKEN env))
          eqn:Hcreds;
        [ | cbn [db trace fst snd hospitals whatsapp_conversations];
            destruct (twilioAnswer env) as [sent | err] eqn:Htw;
            [ | destruct Hsent as [H | [H | [sent H]]]; discriminate ] ] ];
    cbn [db trace fst snd hospitals whatsapp_conversations];
    (split; [reflexivity | ]; split; [reflexivity | ]).
  - exists []. rewrite <- app_assoc. split; [reflexivity | constructor].
  - exists []. rewrite <- app_assoc. split; [reflexivity | constructor].
  - eexists [_]. rewrite <- !app_assoc. split; [reflexivity | ].
    repeat constructor.
Qed.

Lemma appointment_failure_after_merge_witness :
  snd (conclude More.appointmentDown More.botHello "h1" "15551234567"
         "15559876543" Sample.fresh [] Sample.criticalWithRequest Sample.empty)
  = thrown "appointment down".
Proof.
  apply (proj1 (appointment_failure_after_merge More.appointmentDown
                  More.botHello "h1" "15551234567" "15559876543" Sample.fresh []
                  Sample.criticalWithRequest Sample.empty "appointment down"
                  eq_refl (or_introl eq_refl) eq_refl)).
Defined.

(** X12: once a session has its appointment, no message asks for another.
    When [appointment_created] of the session found is truthy, the handler
    makes no call to the appointment function, also when the AI answer
    carries [createAppointment: true] or symptoms with a triage level. *)
Theorem created_flag_blocks_trigger
    (env : Env) (msg : Message.t)
    (hospitalId patientPhone hospitalWhatsApp : string)
    (conversation : Conversation.t) (updated : list Turn)
    (aiResult : AiResult.t) (st : State) :
  truthy (Conversation.appointment_created conversation) = true ->
  exists new,
    trace (fst (conclude env msg hospitalId patientPhone hospitalWhatsApp
                  conversation updated aiResult st))
    = (trace st ++ new)%list
    /\ Forall (fun ev => isAppointmentCall ev = false) new.
Proof.
  intro Hflag.
  assert (Hno : shouldCreateAppointment conversation aiResult
                  (merge conversation aiResult) = false).
  { unfold shouldCreateAppointment. now rewrite Hflag. }
  run_handler. rewrite Hno. split_outcomes; rewrite <- ?app_assoc;
    rewrite ?app_nil_r;
    (eexists; split; [reflexivity | repeat constructor]).
Qed.

Lemma created_flag_blocks_trigger_witness :
  exists new,
    trace (fst (conclude Sample.env More.botHello "h1" "15551234567"
                  "15559876543" More.booked [] Sample.criticalWithRequest
                  Sample.empty))
    = new
    /\ Forall (fun ev => isAppointmentCall ev = false) new.
Proof.
  destruct (created_flag_blocks_trigger Sample.env More.botHello "h1"
              "15551234567" "15559876543" More.booked []
              Sample.criticalWithRequest Sample.empty eq_refl)
    as (new & H & Hnew).
  exists new. split; [exact H | exact Hnew].
Defined.

(** ** What the handler leaves alone *)

Lemma column_updateWhereId (col : Conversation.Column) (i : string)
    (p : Conversation.Patch) (l : list Conversation.t) :
  ~ In col (Conversation.columns p) ->
  map (Conversation.read col) (updateWhereId i p l)
  = map (Conversation.read col) l.
Proof.
  intro H. unfold updateWhereId. rewrite map_map. apply map_ext. intro c.
  destruct (Conversation.id c =? i)%string; [now apply apply_frame | reflexivity].
Qed.

Lemma identity_not_written (col : Conversation.Column) :
  In col identityColumns ->
  ~ In col touchedColumns /\ ~ In col mergedColumnNames.
Proof.
  simpl. intros [<- | [<- | [<- | [<- | []]]]]; split; intuition discriminate.
Qed.

Lemma converse_identity (env : Env) (msg : Message.t)
    (hospitalId hospitalName patientPhone hospitalWhatsApp : string)
    (st : State) (col : Conversation.Column) :
  In col identityColumns ->
  let st' :=
    fst (converse env msg hospitalId hospitalName patientPhone hospitalWhatsApp st) in
  hospitals (db st') = hospitals (db st)
  /\ exists created,
       map (Conversation.read col) (whatsapp_conversations (db st'))
       = (map (Conversation.read col) (whatsapp_conversations (db st))
          ++ map (Conversation.read col) created)%list
       /\ (List.length created <= 1)%nat.
Proof.
  intros Hcol st'. subst st'.
  destruct (identity_not_written col Hcol) as [Ht Hm].
  unfold converse, bind.
  destruct (selectConversation (whatsapp_conversations (db st)) hospitalId
              patientPhone (now_lookup env - window)) as [e | ] eqn:E;
    [ rewrite (resolveSession_hit _ _ _ _ _ E); split; [ | exists [] ]
    | destruct (insertError env (whatsapp_conversations (db st))) as [err | ] eqn:Herr;
      [ rewrite (resolveSession_fail _ _ _ _ _ E Herr); split; [ | exists [] ]
      | rewrite (resolveSession_miss _ _ _ _ E Herr); cbv zeta;
        split;
        [ | exists [Conversation.apply
                      (newConversationColumns hospitalId patientPhone)
                      (blankRow env)] ] ] ];
    run_handler; split_outcomes;
    rewrite ?(column_updateWhereId col _ (mergedColumns _ _)) by exact Hm;
    rewrite ?(column_updateWhereId col _ (inboundColumns _ _)) by exact Ht;
    rewrite ?map_app, ?app_nil_r;
    try reflexivity; (split; [reflexivity | simpl; lia]).
Qed.

Lemma column_nth (col : Conversation.Column)
    (table table' created : list Conversation.t) (k : nat) (c : Conversation.t) :
  map (Conversation.read col) table'
  = (map (Conversation.read col) table ++ map (Conversation.read col) created)%list ->
  nth_error table k = Some c ->
  exists c', nth_error table' k = Some c'
             /\ Conversation.read col c' = Conversation.read col c.
Proof.
  intros Hmap Hk.
  assert (H : nth_error (map (Conversation.read col) table') k
              = Some (Conversation.read col c)).
  { rewrite Hmap, nth_error_app1.
    - now rewrite nth_error_map, Hk.
    - rewrite length_map. apply nth_error_Some. congruence. }
  rewrite nth_error_map in H.
  destruct (nth_error table' k) as [c' | ]; [ | discriminate].
  exists c'. cbn in H. split; [reflexivity | congruence].
Qed.

(** X13: the handler never deletes a session, never moves one and never
    changes whose it is.  After any request every row of
    [whatsapp_conversations] is still at its place with the id, the
    hospital, the patient's number and the creation time it had; at most
    one row is added; and the table of hospitals is as it was. *)
Theorem session_identity_is_immutable
    (env : Env) (req : Request) (st : State) :
  let st' := fst (serve env req st) in
  hospitals (db st') = hospitals (db st)
  /\ (List.length (whatsapp_conversations (db st))
      <= List.length (whatsapp_conversations (db st'))
      <= S (List.length (whatsapp_conversations (db st))))%nat
  /\ forall col, In col identityColumns ->
       forall k c, nth_error (whatsapp_conversations (db st)) k = Some c ->
         exists c', nth_error (whatsapp_conversations (db st')) k = Some c'
                    /\ Conversation.read col c' = Conversation.read col c.
Proof.
  intro st'. subst st'. rewrite serve_state.
  assert (Hsame : hospitals (db st) = hospitals (db st)
            /\ (List.length (whatsapp_conversations (db st))
                <= List.length (whatsapp_conversations (db st))
                <= S (List.length (whatsapp_conversations (db st))))%nat
            /\ forall col, In col identityColumns ->
                 forall k c, nth_error (whatsapp_conversations (db st)) k = Some c ->
                   exists c', nth_error (whatsapp_conversations (db st)) k = Some c'
                              /\ Conversation.read col c' = Conversation.read col c).
  { split; [reflexivity | ]. split; [lia | ]. intros col _ k c Hk. now exists c. }
  destruct (method req =? "OPTIONS")%string; [exact Hsame | ].
  destruct (handle_cases env req st)
    as [(pre & o & -> & _) | (pre & msg & hid & hname & phone & hw & _ & ->)];
    [exact Hsame | ].
  split; [ | split].
  - apply (converse_identity env msg hid hname phone hw
             (mkState (db st) (trace st ++ pre)) Conversation.c_id).
    now left.
  - destruct (converse_identity env msg hid hname phone hw
                (mkState (db st) (trace st ++ pre)) Conversation.c_id
                (or_introl eq_refl)) as (_ & created & Hmap & Hlen).
    cbn [db] in Hmap. apply (f_equal (@List.length _)) in Hmap.
    rewrite length_app, !length_map in Hmap. lia.
  - intros col Hcol k c Hk.
    destruct (converse_identity env msg hid hname phone hw
                (mkState (db st) (trace st ++ pre)) col Hcol)
      as (_ & created & Hmap & _).
    eapply column_nth; eauto.
Qed.

Lemma nth_error_updateWhereId_other (i : string) (p : Conversation.Patch)
    (l : list Conversation.t) (k : nat) (c : Conversation.t) :
  nth_error l k = Some c -> Conversation.id c <> i ->
  nth_error (updateWhereId i p l) k = Some c.
Proof.
  intros Hk Hid. unfold updateWhereId. rewrite nth_error_map, Hk. cbn.
  apply String.eqb_neq in Hid. now rewrite Hid.
Qed.

(** X14: the two updates reach the session of the message only.  Every
    row whose id is not that of the session found or created is, after the
    request, what it was before the updates, at the same place. *)
Theorem other_sessions_untouched
    (env : Env) (msg : Message.t)
    (hospitalId hospitalName patientPhone hospitalWhatsApp : string)
    (st st1 : State) (conversation : Conversation.t) :
  resolveSession env hospitalId patientPhone st = (st1, ok conversation) ->
  forall k c,
    nth_error (whatsapp_conversations (db st1)) k = Some c ->
    Conversation.id c <> Conversation.id conversation ->
    nth_error (whatsapp_conversations (db (fst
       (converse env msg hospitalId hospitalName patientPhone hospitalWhatsApp st))))
      k
    = Some c.
Proof.
  intros R k c Hk Hid.
  destruct (converse_rows env msg hospitalId hospitalName patientPhone
              hospitalWhatsApp st st1 conversation R)
    as [[-> _] | (aiResult & _ & ->)];
    repeat apply nth_error_updateWhereId_other; assumption.
Qed.

Lemma other_sessions_untouched_witness :
  nth_error (whatsapp_conversations (db (fst
     (converse Sample.env Sample.hello "h1" "General" "15551234567"
        "15559876543" Sample.busy)))) 0
  = Some (Sample.session "s-a" "15551234567" (JStr "collecting") 9000000 9999000).
Proof.
  apply (other_sessions_untouched Sample.env Sample.hello "h1" "General"
           "15551234567" "15559876543" Sample.busy More.lookedUp Sample.newest
           eq_refl 0%nat
           (Sample.session "s-a" "15551234567" (JStr "collecting") 9000000 9999000)
           eq_refl).
  discriminate.
Defined.

(** ** Tenants *)

Lemma filter_none {A : Type} (f : A -> bool) (l : list A) :
  (forall x, In x l -> f x = false) -> filter f l = [].
Proof.
  induction l as [ | a l IH ]; intro H; simpl; [reflexivity | ].
  rewrite (H a (or_introl eq_refl)). apply IH. intros x Hx. apply H. now right.
Qed.

Lemma text_eq_true (cell : option string) (value : string) :
  text_eq cell value = true <-> cell = Some value.
Proof.
  unfold text_eq. destruct cell as [s | ].
  - rewrite String.eqb_eq. split; congruence.
  - split; discriminate.
Qed.

(** X15: a number held by one enabled tenant routes to that tenant.  For
    a plain number (digits only), when exactly one row of [hospitals] is
    enabled and has the number, bare or with the sign, the handler
    resolves to it wherever it stands in the table, with one lookup: the
    fallback is not consulted. *)
Theorem unique_match_is_resolved
    (env : Env) (hospitalWhatsApp : string) (st : State)
    (before after : list Hospital.t) (h : Hospital.t) :
  plain hospitalWhatsApp = true ->
  hospitals (db st) = (before ++ h :: after)%list ->
  Hospital.whatsapp_enabled h = true ->
  Hospital.whatsapp_number h = Some hospitalWhatsApp
  \/ Hospital.whatsapp_number h = Some ("+" ++ hospitalWhatsApp) ->
  (forall x, In x (before ++ after) ->
             Hospital.whatsapp_enabled x = true ->
             Hospital.whatsapp_number x <> Some hospitalWhatsApp
             /\ Hospital.whatsapp_number x <> Some ("+" ++ hospitalWhatsApp)) ->
  resolveHospital env hospitalWhatsApp st
  = (mkState (db st) (trace st ++ [ev_select t_hospitals]),
     ok (Some (Hospital.id h), Hospital.name h)).
Proof.
  intros Hplain Htable Hen Hnum Hothers.
  assert (Hh : matchesNumber (orAnswer env) hospitalWhatsApp h = true).
  { unfold matchesNumber. rewrite Hplain, Hen, andb_true_r.
    apply orb_true_iff. now rewrite !text_eq_true. }
  assert (Hx : forall x, In x (before ++ after) ->
                 matchesNumber (orAnswer env) hospitalWhatsApp x = false).
  { intros x Hin. apply matchesNumber_false; [exact Hplain | ].
    now apply Hothers. }
  apply resolveHospital_single_match. rewrite Htable, filter_app. simpl.
  rewrite Hh.
  rewrite (filter_none _ before)
    by (intros x Hin; apply Hx, in_or_app; now left).
  rewrite (filter_none _ after)
    by (intros x Hin; apply Hx, in_or_app; now right).
  reflexivity.
Qed.

Lemma unique_match_is_resolved_witness :
  snd (resolveHospital Sample.env "15550001111" Sample.misrouted)
  = ok (Some "h-open", "Open Clinic").
Proof.
  rewrite (unique_match_is_resolved Sample.env "15550001111" Sample.misrouted
             [Sample.closed] [] Sample.open eq_refl eq_refl eq_refl
             (or_intror eq_refl)).
  - reflexivity.
  - intros x [<- | []]. discriminate.
Defined.

(** ** A request that succeeds *)

(** X16: what a successful request answers is what it gave the store to
    write.  When the request gets through, the AI function has answered;
    the handler has made the inbound update, called the AI function, sent
    the reply if there was one to send, and then made the merged update of
    the same session, with the merge of that session and that answer, after
    which it has called nothing but the appointment function; and the
    response is built from the same session and the same merge, so the
    [conversationId] and [conversationState] the bot is told are the id
    the updates name and the state the merged update carries. *)
Theorem success_writes_merged_state
    (env : Env) (msg : Message.t)
    (hospitalId hospitalName patientPhone hospitalWhatsApp : string)
    (st st1 : State) (conversation : Conversation.t) (r : Response) :
  resolveSession env hospitalId patientPhone st = (st1, ok conversation) ->
  let run :=
    converse env msg hospitalId hospitalName patientPhone hospitalWhatsApp st in
  let updated :=
    updatedTranscript conversation (Message.body msg) (Message.messageSid msg)
      (now_inbound env) in
  snd run = ok r ->
  exists aiResult sent asked,
    aiAnswer env = ok aiResult
    /\ r = reply (Message.isBaileysBot msg) aiResult conversation
             (merge conversation aiResult)
    /\ trace (fst run)
       = (trace st1
          ++ [ev_update (Conversation.id conversation)
                (inboundColumns updated (now_touch env));
              ev_ai (aiRequest conversation patientPhone hospitalId hospitalName
                       (Message.body msg) updated)]
          ++ sent
          ++ ev_update (Conversation.id conversation)
               (mergedColumns (finalTranscript updated aiResult (now_reply env))
                  (merge conversation aiResult))
             :: asked)%list
    /\ Forall (fun ev => isTwilioCall ev = true) sent
    /\ Forall (fun ev => isAppointmentCall ev = true) asked.
Proof.
  intros R run updated. subst run. unfold converse, bind. rewrite R.
  run_handler. fold updated.
  split_outcomes; intro H; try discriminate H; injection H as <-;
    rewrite <- ?app_assoc;
    match goal with
    | Hai : aiAnswer env = ok ?a |- _ => exists a
    end;
    first
      [ solve [exists [], []; repeat split; repeat constructor]
      | solve [eexists [], [_]; repeat split; repeat constructor]
      | solve [eexists [_], []; repeat split; repeat constructor]
      | solve [eexists [_], [_]; repeat split; repeat constructor] ].
Qed.

Lemma success_writes_merged_state_witness :
  exists aiResult,
    aiAnswer Sample.env = ok aiResult
    /\ snd (converse Sample.env Sample.hello "h1" "General" "15551234567"
              "15559876543" Sample.busy)
       = ok (reply false aiResult Sample.newest (merge Sample.newest aiResult)).
Proof.
  destruct (success_writes_merged_state Sample.env Sample.hello "h1" "General"
              "15551234567" "15559876543" Sample.busy More.lookedUp Sample.newest
              (reply false Sample.answer Sample.newest
                 (merge Sample.newest Sample.answer))
              eq_refl eq_refl) as (aiResult & sent & asked & Hai & Hr & _).
  exists aiResult. split; [exact Hai | ].
  cbn [Message.isBaileysBot Sample.hello] in Hr. now rewrite <- Hr.
Defined.

(** ** Calls made for one request *)

Ltac count_calls :=
  simpl; repeat split; try lia; try reflexivity;
  intros [H | H]; try (now elim H); try reflexivity.

Lemma converse_calls (env : Env) (msg : Message.t)
    (hospitalId hospitalName patientPhone hospitalWhatsApp : string)
    (st : State) :
  exists new,
    trace (fst (converse env msg hospitalId hospitalName patientPhone
                  hospitalWhatsApp st))
    = (trace st ++ new)%list
    /\ (List.length (filter isAiCall new) <= 1)%nat
    /\ (List.length (filter isTwilioCall new) <= 1)%nat
    /\ (List.length (filter isAppointmentCall new) <= 1)%nat
    /\ (List.length (filter isInsert new) <= 1)%nat
    /\ (List.length (filter isUpdate new) <= 2)%nat
    /\ (filter isTwilioCall new <> [] \/ filter isAppointmentCall new <> [] ->
        List.length (filter isAiCall new) = 1%nat).
Proof.
  unfold converse, bind.
  destruct (selectConversation (whatsapp_conversations (db st)) hospitalId
              patientPhone (now_lookup env - window)) as [e | ] eqn:E;
    [ rewrite (resolveSession_hit _ _ _ _ _ E)
    | destruct (insertError env (whatsapp_conversations (db st))) as [err | ] eqn:Herr;
      [ rewrite (resolveSession_fail _ _ _ _ _ E Herr)
      | rewrite (resolveSession_miss _ _ _ _ E Herr); cbv zeta ] ];
    run_handler; split_outcomes;
    rewrite <- ?app_assoc;
    (eexists; split; [reflexivity | count_calls]).
Qed.

Lemma filter_hospital_select_none (f : Event -> bool) (pre : list Event) :
  f (ev_select t_hospitals) = false ->
  Forall (eq (ev_select t_hospitals)) pre ->
  filter f pre = [].
Proof.
  intros Hf H. apply filter_none. intros x Hx.
  rewrite Forall_forall in H. now rewrite <- (H x Hx).
Qed.

(** X17: one request makes at most one call to the AI function, one to
    Twilio and one to the appointment function, inserts at most one
    session and makes at most two updates; and it calls Twilio or the
    appointment function only after it has called the AI function. *)
Theorem calls_are_bounded (env : Env) (req : Request) (st : State) :
  exists new,
    trace (fst (serve env req st)) = (trace st ++ new)%list
    /\ (List.length (filter isAiCall new) <= 1)%nat
    /\ (List.length (filter isTwilioCall new) <= 1)%nat
    /\ (List.length (filter isAppointmentCall new) <= 1)%nat
    /\ (List.length (filter isInsert new) <= 1)%nat
    /\ (List.length (filter isUpdate new) <= 2)%nat
    /\ (filter isTwilioCall new <> [] \/ filter isAppointmentCall new <> [] ->
        List.length (filter isAiCall new) = 1%nat).
Proof.
  rewrite serve_state.
  assert (Hquiet : forall pre, Forall (eq (ev_select t_hospitals)) pre ->
            (List.length (filter isAiCall pre) <= 1)%nat
            /\ (List.length (filter isTwilioCall pre) <= 1)%nat
            /\ (List.length (filter isAppointmentCall pre) <= 1)%nat
            /\ (List.length (filter isInsert pre) <= 1)%nat
            /\ (List.length (filter isUpdate pre) <= 2)%nat
            /\ (filter isTwilioCall pre <> []
                \/ filter isAppointmentCall pre <> [] ->
                List.length (filter isAiCall pre) = 1%nat)).
  { intros pre Hpre.
    rewrite !(filter_hospital_select_none _ pre) by (reflexivity || exact Hpre).
    simpl. repeat split; try lia. intros [H | H]; now elim H. }
  destruct (method req =? "OPTIONS")%string.
  { exists []. rewrite app_nil_r. split; [reflexivity | ]. apply Hquiet. constructor. }
  destruct (handle_cases env req st)
    as [(pre & o & -> & Hpre) | (pre & msg & hid & hname & phone & hw & Hpre & ->)].
  - exists pre. split; [reflexivity | now apply Hquiet].
  - destruct (converse_calls env msg hid hname phone hw
                (mkState (db st) (trace st ++ pre)))
      as (new & -> & Hnew).
    cbn [trace]. exists (pre ++ new)%list. split; [now rewrite app_assoc | ].
    rewrite !filter_app.
    rewrite !(filter_hospital_select_none _ pre) by (reflexivity || exact Hpre).
    exact Hnew.
Qed.

(** X18: once the session is known the AI function is called exactly once,
    and it is told what was just stored: the transcript of its request is
    the one the inbound update wrote, ending in the patient's turn, and
    the state, symptoms, triage level and name are those of the session
    before the merge. *)
Theorem ai_called_once_with_stored_transcript
    (env : Env) (msg : Message.t)
    (hospitalId hospitalName patientPhone hospitalWhatsApp : string)
    (st st1 : State) (conversation : Conversation.t) :
  resolveSession env hospitalId patientPhone st = (st1, ok conversation) ->
  let updated :=
    updatedTranscript conversation (Message.body msg) (Message.messageSid msg)
      (now_inbound env) in
  let request :=
    aiRequest conversation patientPhone hospitalId hospitalName
      (Message.body msg) updated in
  exists new,
    trace (fst (converse env msg hospitalId hospitalName patientPhone
                  hospitalWhatsApp st))
    = (trace st1 ++ ev_update (Conversation.id conversation)
                      (inboundColumns updated (now_touch env))
                 :: ev_ai request :: new)%list
    /\ filter isAiCall new = []
    /\ AiRequest.transcript request = updated
    /\ last updated (mkTurn assistant None 0 None)
       = mkTurn patient (Some (Message.body msg)) (now_inbound env)
           (Some (Message.messageSid msg))
    /\ AiRequest.conversationState request
       = Conversation.conversation_state conversation
    /\ AiRequest.existingSymptoms request
       = Conversation.collected_symptoms conversation
    /\ AiRequest.existingTriageLevel request
       = Conversation.triage_level conversation
    /\ AiRequest.existingPatientName request
       = Conversation.patient_name conversation.
Proof.
  intros R updated request.
  assert (Hlast : last updated (mkTurn assistant None 0 None)
                  = mkTurn patient (Some (Message.body msg)) (now_inbound env)
                      (Some (Message.messageSid msg))).
  { subst updated. unfold updatedTranscript. apply last_last. }
  unfold converse, bind. rewrite R. run_handler. fold updated. fold request.
  split_outcomes; rewrite <- ?app_assoc;
    (eexists; split; [reflexivity | ]; repeat split; exact Hlast).
Qed.

Lemma ai_called_once_with_stored_transcript_witness :
  exists new,
    trace (fst (converse Sample.env Sample.hello "h1" "General" "15551234567"
                  "15559876543" Sample.busy))
    = (trace More.lookedUp
       ++ ev_update "s-b"
            (inboundColumns
               (updatedTranscript Sample.newest (JStr "I have a fever")
                  (JStr "SM1") 10000001) 10000002)
          :: ev_ai (aiRequest Sample.newest "15551234567" "h1" "General"
                      (JStr "I have a fever")
                      (updatedTranscript Sample.newest (JStr "I have a fever")
                         (JStr "SM1") 10000001))
          :: new)%list.
Proof.
  destruct (ai_called_once_with_stored_transcript Sample.env Sample.hello "h1"
              "General" "15551234567" "15559876543" Sample.busy More.lookedUp
              Sample.newest eq_refl) as (new & H & _).
  exists new. exact H.
Defined.

(** ** The state of a session *)

Lemma serve_keeps_state_set_witness :
  Forall (fun c => Conversation.conversation_state c <> JNull)
    (whatsapp_conversations (db (fst
       (serve Sample.env
          (Sample.twilioRequest "whatsapp:+15551234567" "whatsapp:+15559876543"
             "I have a fever") Sample.busy)))).
Proof.
  apply (serve_keeps_state_set Sample.env
           (Sample.twilioRequest "whatsapp:+15551234567" "whatsapp:+15559876543"
              "I have a fever") Sample.busy).
  - intros aiResult H. injection H as <-. now left.
  - repeat constructor; discriminate.
Defined.

(** ** What Twilio is answered *)

(** X20: a Twilio form is answered with one of three fixed documents: the
    empty acknowledgment, the "not configured" message or the apology.
    Nothing of the store, of the AI answer or of the error thrown gets into
    the response on that channel. *)
Theorem twilio_response_is_fixed (env : Env) (req : Request) (st : State) :
  method req <> "OPTIONS" ->
  isJson req = false ->
  snd (serve env req st) = emptyTwiml
  \/ snd (serve env req st) = notConfigured false
  \/ snd (serve env req st) = errorReply req EmptyString.
Proof.
  intros Hm Hjson. apply String.eqb_neq in Hm.
  rewrite (serve_of_handle env req st Hm). cbn [snd].
  assert (Herr : forall e, errorReply req e = errorReply req EmptyString)
    by (intro e; unfold errorReply; now rewrite Hjson).
  destruct (handle_routes env req st)
    as [[e ->] | (msg & from & to & pre & Hmsg & _ & _ & _
                  & [-> | (hid & hn & ->)])]; cbn [snd].
  - right; right. apply Herr.
  - right; left. now rewrite Hjson.
  - destruct (snd (converse env msg hid hn (normalize from) (normalize to)
                     (mkState (db st) (trace st ++ pre)))) as [r | e] eqn:E.
    + left. apply converse_ok in E. destruct E as (c & a & _ & ->).
      rewrite (readMessage_channel env req st msg Hmsg), Hjson. reflexivity.
    + right; right. apply Herr.
Qed.

Lemma twilio_response_is_fixed_witness :
  snd (serve More.aiDown
         (Sample.twilioRequest "whatsapp:+15551234567" "whatsapp:+15559876543"
            "I have a fever") Sample.empty)
  = emptyTwiml
  \/ snd (serve More.aiDown
            (Sample.twilioRequest "whatsapp:+15551234567"
               "whatsapp:+15559876543" "I have a fever") Sample.empty)
     = notConfigured false
  \/ snd (serve More.aiDown
            (Sample.twilioRequest "whatsapp:+15551234567"
               "whatsapp:+15559876543" "I have a fever") Sample.empty)
     = errorReply
         (Sample.twilioRequest "whatsapp:+15551234567" "whatsapp:+15559876543"
            "I have a fever") EmptyString.
Proof.
  apply (twilio_response_is_fixed More.aiDown
           (Sample.twilioRequest "whatsapp:+15551234567" "whatsapp:+15559876543"
              "I have a fever") Sample.empty ltac:(discriminate) eq_refl).
Defined.

(** X21: a Twilio form with fields missing is not refused.  Whatever
    fields the form has, the message is read with the empty string for
    each missing one, nothing throws, and the request goes on to the
    tenant lookup, which is the first call made. *)
Theorem form_request_reaches_lookup
    (env : Env) (req : Request) (st : State) (form : FormData.t) :
  method req <> "OPTIONS" ->
  isJson req = false ->
  formData req = ok form ->
  readMessage env req st
  = (st, ok (Message.mk (JStr (field (FormData.From form)))
               (JStr (field (FormData.To form)))
               (JStr (field (FormData.Body form)))
               (JStr (field (FormData.MessageSid form))) false))
  /\ exists rest,
       trace (fst (serve env req st))
       = (trace st ++ ev_select t_hospitals :: rest)%list.
Proof.
  intros Hm Hjson Hform.
  assert (Hread : readMessage env req st
                  = (st, ok (Message.mk (JStr (field (FormData.From form)))
                               (JStr (field (FormData.To form)))
                               (JStr (field (FormData.Body form)))
                               (JStr (field (FormData.MessageSid form))) false))).
  { unfold readMessage. rewrite Hjson. unfold bind, await, ret. now rewrite Hform. }
  split; [exact Hread | ].
  apply String.eqb_neq in Hm. rewrite serve_state, Hm.
  unfold handle, bind. rewrite Hread, logMessage_run.
  cbn [Message.from Message.to Message.body printable andb stripped ret].
  unfold resolveHospital, bind, emit, hospitalRows, ret. cbn [db trace fst snd].
  assert (Hgo : forall m hid hn phone hw more,
             exists rest,
               trace (fst (converse env m hid hn phone hw
                             (mkState (db st)
                                (trace st ++ ev_select t_hospitals :: more))))
               = (trace st ++ ev_select t_hospitals :: rest)%list).
  { intros m hid hn phone hw more.
    destruct (converse_writes env m hid hn phone hw
                (mkState (db st) (trace st ++ ev_select t_hospitals :: more)))
      as (new & -> & _).
    cbn [trace]. rewrite <- app_assoc. eexists. reflexivity. }
  destruct (selectHospital (orAnswer env) (hospitals (db st))
              (normalize (field (FormData.To form)))) as [h | ].
  - destruct (noHospital (Some (Hospital.id h))).
    + exists []. reflexivity.
    + apply (Hgo _ _ _ _ _ []).
  - cbn [db trace fst snd]. rewrite <- app_assoc.
    destruct (selectFallbackHospital (hospitals (db st))) as [h | ].
    + destruct (noHospital (Some (Hospital.id h))).
      * exists [ev_select t_hospitals]. reflexivity.
      * apply (Hgo _ _ _ _ _ [ev_select t_hospitals]).
    + exists [ev_select t_hospitals]. reflexivity.
Qed.

Lemma form_request_reaches_lookup_witness :
  exists rest,
    trace (fst (serve Sample.env More.blankForm Sample.empty))
    = ev_select t_hospitals :: rest.
Proof.
  destruct (form_request_reaches_lookup Sample.env More.blankForm Sample.empty
              (FormData.mk None None None None None)
              ltac:(discriminate) eq_refl eq_refl) as (_ & rest & H).
  exists rest. exact H.
Defined.
